(** * savecb: saving the clipboard to a file

    A shallow embedding of [savecb.c].  The program is a chain of GTK
    callbacks: [main] asks the clipboard for its targets, the targets
    callback picks one and asks for its contents, the contents callback
    classifies the payload and runs a save dialog.

    The toolkit (clipboard, dialog, file system, image encoder) is the
    environment: its answers are the fields of an [Env] record, and the
    calls the program makes are recorded, in order, in a trace of
    [Event]s carried by the program state together with the file system.
    Whether the toolkit starts at all is the [Session]: [gtk_init] opens
    the display or terminates the process. *)

From Stdlib Require Import ZArith String Ascii List Bool Lia.
From stdpp Require Import base gmap strings list.
Import ListNotations.

Local Open Scope string_scope.
Local Open Scope list_scope.

(** ** C strings and the GLib string helpers *)

(** A [gchar *] is modelled by the string it points to. *)

Definition nl : string := String (ascii_of_nat 10) EmptyString.

(** [strncmp (str, prefix, strlen (prefix)) == 0] *)
Fixpoint g_str_has_prefix (str prefix : string) {struct prefix} : bool :=
  match prefix with
  | EmptyString => true
  | String p prefix' =>
      match str with
      | EmptyString => false
      | String c str' =>
          if Ascii.eqb c p then g_str_has_prefix str' prefix' else false
      end
  end.

(** [str + n]: the string from its [n]-th character on. *)
Fixpoint str_offset (n : nat) (str : string) : string :=
  match n with
  | O => str
  | S n' =>
      match str with
      | EmptyString => EmptyString
      | String _ str' => str_offset n' str'
      end
  end.

(** [str_len < suffix_len ? FALSE
     : strcmp (str + str_len - suffix_len, suffix) == 0] *)
Definition g_str_has_suffix (str suffix : string) : bool :=
  let str_len := String.length str in
  let suffix_len := String.length suffix in
  if Nat.ltb str_len suffix_len then false
  else String.eqb (str_offset (str_len - suffix_len) str) suffix.

(** [g_strcmp0 (a, b) == 0] on two non-null strings. *)
Definition g_strcmp0_eq (a b : string) : bool := String.eqb a b.

(** ** Clipboard targets *)

(** A [GdkAtom] is an interned string; [gdk_atom_name] gives it back. *)
Definition GdkAtom : Type := string.
Definition gdk_atom_name (a : GdkAtom) : string := a.

Definition is_image_target (a : GdkAtom) : bool :=
  g_str_has_prefix (gdk_atom_name a) "image/".

Definition is_text_target (a : GdkAtom) : bool :=
  g_strcmp0_eq (gdk_atom_name a) "text/plain"
  || g_strcmp0_eq (gdk_atom_name a) "UTF8_STRING".

(** The two scanning loops of [on_clipboard_received_targets]: walk the
    array from index 0 and [break] at the first hit. *)
Fixpoint first_target (hit : GdkAtom -> bool) (targets : list GdkAtom)
  : option GdkAtom :=
  match targets with
  | [] => None
  | t :: rest => if hit t then Some t else first_target hit rest
  end.

(** [target_atom] after both loops; [None] is the [NULL] atom. *)
Definition select_target (targets : list GdkAtom) : option GdkAtom :=
  match first_target is_image_target targets with
  | Some a => Some a
  | None => first_target is_text_target targets
  end.

(** ** Toolkit objects *)

Inductive GtkResponseType : Type :=
| GTK_RESPONSE_NONE
| GTK_RESPONSE_REJECT
| GTK_RESPONSE_ACCEPT
| GTK_RESPONSE_DELETE_EVENT
| GTK_RESPONSE_OK
| GTK_RESPONSE_CANCEL
| GTK_RESPONSE_CLOSE
| GTK_RESPONSE_YES
| GTK_RESPONSE_NO
| GTK_RESPONSE_APPLY
| GTK_RESPONSE_HELP.

Inductive GtkFileChooserAction : Type :=
| GTK_FILE_CHOOSER_ACTION_OPEN
| GTK_FILE_CHOOSER_ACTION_SAVE
| GTK_FILE_CHOOSER_ACTION_SELECT_FOLDER
| GTK_FILE_CHOOSER_ACTION_CREATE_FOLDER.

Record GtkFileFilter : Type := mkFilter {
  filter_name : option string;
  filter_patterns : list string
}.

Record GtkFileChooserNative : Type := mkDialog {
  dialog_title : string;
  dialog_action : GtkFileChooserAction;
  dialog_accept_label : string;
  dialog_cancel_label : string;
  dialog_current_name : option string;
  dialog_filters : list GtkFileFilter
}.

Definition gtk_file_chooser_native_new
    (title : string) (action : GtkFileChooserAction)
    (accept_label cancel_label : string) : GtkFileChooserNative :=
  mkDialog title action accept_label cancel_label None [].

Definition gtk_file_chooser_set_current_name
    (dialog : GtkFileChooserNative) (name : string) : GtkFileChooserNative :=
  mkDialog (dialog_title dialog) (dialog_action dialog)
           (dialog_accept_label dialog) (dialog_cancel_label dialog)
           (Some name) (dialog_filters dialog).

Definition gtk_file_chooser_add_filter
    (dialog : GtkFileChooserNative) (filter : GtkFileFilter)
  : GtkFileChooserNative :=
  mkDialog (dialog_title dialog) (dialog_action dialog)
           (dialog_accept_label dialog) (dialog_cancel_label dialog)
           (dialog_current_name dialog) (dialog_filters dialog ++ [filter]).

Definition gtk_file_filter_new : GtkFileFilter := mkFilter None [].

Definition gtk_file_filter_set_name (filter : GtkFileFilter) (name : string)
  : GtkFileFilter :=
  mkFilter (Some name) (filter_patterns filter).

Definition gtk_file_filter_add_pattern (filter : GtkFileFilter)
    (pattern : string) : GtkFileFilter :=
  mkFilter (filter_name filter) (filter_patterns filter ++ [pattern]).

(** A decoded image.  The program never looks inside it. *)
Record GdkPixbuf : Type := mkPixbuf {
  pixbuf_width : nat;
  pixbuf_height : nat;
  pixbuf_pixels : list N
}.

Record GError : Type := mkGError { message : string }.

(** What the clipboard hands to the contents callback: the length of
    the raw data and what the toolkit's two decoders make of it
    ([None] is the [NULL] they return). *)
Record GtkSelectionData : Type := mkSelectionData {
  gtk_selection_data_get_length : Z;
  gtk_selection_data_get_pixbuf : option GdkPixbuf;
  gtk_selection_data_get_text : option string
}.

(** ** The environment *)

(** What a failed [gdk_pixbuf_save] leaves at its destination.  The
    library opens the destination for writing before it encodes: when it
    cannot open it nothing is touched; when the encoder fails the
    destination is unlinked; when the final close fails what was written
    so far stays. *)
Inductive Destination : Type :=
| Untouched
| Removed
| Partial (contents : string).

(** The answers of the toolkit and of the user.  [g_file_set_contents]
    answers [None] for [TRUE] and [Some error] for [FALSE]; it replaces
    the file through a temporary one, so a failure leaves the destination
    as it was.  [gdk_pixbuf_save] answers the encoded bytes it stored, or
    the error together with what the failure leaves at the destination. *)
Record Env : Type := mkEnv {
  clipboard_targets : list GdkAtom;
  clipboard_contents : GdkAtom -> GtkSelectionData;
  dialog_response : GtkFileChooserNative -> GtkResponseType;
  dialog_filename : GtkFileChooserNative -> option string;
  file_set_contents_result : string -> string -> option GError;
  pixbuf_save_result : GdkPixbuf -> string -> string -> string + GError;
  pixbuf_save_leaves : GdkPixbuf -> string -> string -> Destination
}.

(** What [gtk_init] finds, given the command line and the host: a
    display it can open, behind which the toolkit and the user answer as
    [env] says, or none. *)
Inductive Session : Type :=
| NoDisplay
| Display (env : Env).

(** ** Program state: what the run has done so far *)

Inductive Event : Type :=
| EvPrint (format : string) (args : list string)
| EvPrintErr (format : string) (args : list string)
| EvRequestTargets
| EvRequestContents (target : GdkAtom)
| EvDialogRun (dialog : GtkFileChooserNative)
| EvFileSetContents (filename contents : string)
| EvPixbufSave (pixbuf : GdkPixbuf) (filename format : string)
| EvMainQuit.

(** A callback registered with the clipboard and not yet delivered. *)
Inductive Callback : Type :=
| CbReceivedTargets
| CbReceivedContent (target : GdkAtom).

Record State : Type := mkState {
  trace : list Event;
  files : gmap string string;
  pending : list Callback;
  quit_requested : bool
}.

Definition initial_state (fs : gmap string string) : State :=
  mkState [] fs [] false.

(** ** A state monad for the toolkit calls *)

Definition M (A : Type) : Type := State -> A * State.

Definition ret {A : Type} (a : A) : M A := fun st => (a, st).

Definition bind {A B : Type} (c : M A) (k : A -> M B) : M B :=
  fun st => let (a, st') := c st in k a st'.

Notation "x <- c ;; k" := (bind c (fun x => k))
  (at level 100, c at next level, right associativity).
Notation "c ;; k" := (bind c (fun _ => k))
  (at level 100, right associativity).

Definition exec {A : Type} (c : M A) (st : State) : State := snd (c st).

Definition emit (e : Event) : M unit :=
  fun st => (tt, mkState (trace st ++ [e]) (files st) (pending st)
                         (quit_requested st)).

Definition store_file (filename contents : string) : M unit :=
  fun st => (tt, mkState (trace st) (<[filename := contents]> (files st))
                         (pending st) (quit_requested st)).

(** The files after a failed save that left [left] at [filename]. *)
Definition after_failed_save (left : Destination) (filename : string)
    (fs : gmap string string) : gmap string string :=
  match left with
  | Untouched => fs
  | Removed => delete filename fs
  | Partial contents => <[filename := contents]> fs
  end.

Definition spoil_file (left : Destination) (filename : string) : M unit :=
  fun st => (tt, mkState (trace st)
                         (after_failed_save left filename (files st))
                         (pending st) (quit_requested st)).

Definition register_callback (cb : Callback) : M unit :=
  fun st => (tt, mkState (trace st) (files st) (pending st ++ [cb])
                         (quit_requested st)).

Definition g_print (format : string) (args : list string) : M unit :=
  emit (EvPrint format args).

Definition g_printerr (format : string) (args : list string) : M unit :=
  emit (EvPrintErr format args).

Definition gtk_main_quit : M unit :=
  emit EvMainQuit ;;
  fun st => (tt, mkState (trace st) (files st) (pending st) true).

(** ** The program *)

(** The format strings and labels of [savecb.c]. *)
Definition fmt_text_saved : string := "Text successfully saved to: %s" ++ nl.
Definition fmt_text_error : string := "Error saving text file: %s" ++ nl.
Definition fmt_text_canceled : string := "Text save canceled." ++ nl.
Definition fmt_image_saved : string := "Image successfully saved to: %s" ++ nl.
Definition fmt_image_error : string := "Error saving image: %s" ++ nl.
Definition fmt_image_canceled : string := "Image save canceled." ++ nl.
Definition fmt_unsupported : string :=
  "Clipboard is empty or contains an unsupported format." ++ nl.
Definition fmt_image_detected : string :=
  "Image data detected. Opening save dialog..." ++ nl.
Definition fmt_text_detected : string :=
  "Text data detected. Opening save dialog..." ++ nl.
Definition fmt_found_targets : string := "Found targets: ".

Definition text_filter_label : string := "Text Files (" ++ "*.txt)".
Definition png_filter_label : string := "PNG Image (" ++ "*.png)".
Definition jpeg_filter_label : string := "JPEG Image (" ++ "*.jpg)".

Section Program.

Variable env : Env.

(** *** Toolkit calls that consult the environment *)

Definition gtk_native_dialog_run (dialog : GtkFileChooserNative)
  : M GtkResponseType :=
  emit (EvDialogRun dialog) ;;
  ret (dialog_response env dialog).

Definition gtk_file_chooser_get_filename (dialog : GtkFileChooserNative)
  : M (option string) :=
  ret (dialog_filename env dialog).

(** [g_file_set_contents (filename, contents, length, &error)]: a
    negative [length] means the whole nul-terminated string.  The
    result is [None] for [TRUE]; the file is replaced only then. *)
Definition g_file_set_contents (filename contents : string) (length : Z)
  : M (option GError) :=
  let data :=
    if (length <? 0)%Z then contents
    else String.substring 0 (Z.to_nat length) contents in
  emit (EvFileSetContents filename data) ;;
  match file_set_contents_result env filename data with
  | None => store_file filename data ;; ret None
  | Some error => ret (Some error)
  end.

(** [gdk_pixbuf_save (pixbuf, filename, format, &error, NULL)] *)
Definition gdk_pixbuf_save (pixbuf : GdkPixbuf) (filename format : string)
  : M (option GError) :=
  emit (EvPixbufSave pixbuf filename format) ;;
  match pixbuf_save_result env pixbuf filename format with
  | inl encoded => store_file filename encoded ;; ret None
  | inr error =>
      spoil_file (pixbuf_save_leaves env pixbuf filename format) filename ;;
      ret (Some error)
  end.

Definition gtk_clipboard_request_targets : M unit :=
  emit EvRequestTargets ;;
  register_callback CbReceivedTargets.

Definition gtk_clipboard_request_contents (target : GdkAtom) : M unit :=
  emit (EvRequestContents target) ;;
  register_callback (CbReceivedContent target).

(** *** [save_text] *)

Definition text_dialog : GtkFileChooserNative :=
  let dialog :=
    gtk_file_chooser_native_new "Save Text File"
      GTK_FILE_CHOOSER_ACTION_SAVE "_Save" "_Cancel" in
  let dialog :=
    gtk_file_chooser_set_current_name dialog "clipboard_text.txt" in
  let filter := gtk_file_filter_new in
  let filter := gtk_file_filter_set_name filter text_filter_label in
  let filter := gtk_file_filter_add_pattern filter "*.txt" in
  gtk_file_chooser_add_filter dialog filter.

Definition save_text (text : string) : M unit :=
  let dialog := text_dialog in
  (response <- gtk_native_dialog_run dialog ;;
   match response with
   | GTK_RESPONSE_ACCEPT =>
       filename <- gtk_file_chooser_get_filename dialog ;;
       match filename with
       | Some filename =>
           error <- g_file_set_contents filename text (-1) ;;
           match error with
           | None => g_print fmt_text_saved [filename]
           | Some error => g_printerr fmt_text_error [message error]
           end
       | None => ret tt
       end
   | _ => g_print fmt_text_canceled []
   end) ;;
  gtk_main_quit.

(** *** [save_image] *)

Definition image_dialog : GtkFileChooserNative :=
  let dialog :=
    gtk_file_chooser_native_new "Save Image File"
      GTK_FILE_CHOOSER_ACTION_SAVE "_Save" "_Cancel" in
  let png_filter := gtk_file_filter_new in
  let png_filter := gtk_file_filter_set_name png_filter png_filter_label in
  let png_filter := gtk_file_filter_add_pattern png_filter "*.png" in
  let dialog := gtk_file_chooser_add_filter dialog png_filter in
  let jpeg_filter := gtk_file_filter_new in
  let jpeg_filter := gtk_file_filter_set_name jpeg_filter jpeg_filter_label in
  let jpeg_filter := gtk_file_filter_add_pattern jpeg_filter "*.jpg" in
  let dialog := gtk_file_chooser_add_filter dialog jpeg_filter in
  gtk_file_chooser_set_current_name dialog "clipboard_image.png".

(** The format string handed to the encoder for a file name. *)
Definition image_format (filename : string) : string :=
  if g_str_has_suffix filename ".jpg" || g_str_has_suffix filename ".jpeg"
  then "jpeg" else "png".

Definition save_image (pixbuf : GdkPixbuf) : M unit :=
  let dialog := image_dialog in
  (response <- gtk_native_dialog_run dialog ;;
   match response with
   | GTK_RESPONSE_ACCEPT =>
       filename <- gtk_file_chooser_get_filename dialog ;;
       match filename with
       | Some filename =>
           let format := image_format filename in
           error <- gdk_pixbuf_save pixbuf filename format ;;
           match error with
           | None => g_print fmt_image_saved [filename]
           | Some error => g_printerr fmt_image_error [message error]
           end
       | None => ret tt
       end
   | _ => g_print fmt_image_canceled []
   end) ;;
  gtk_main_quit.

(** *** [on_clipboard_received_content] *)

Definition on_clipboard_received_content
    (selection_data : GtkSelectionData) : M unit :=
  if (gtk_selection_data_get_length selection_data =? 0)%Z then
    g_print fmt_unsupported [] ;;
    gtk_main_quit
  else
    match gtk_selection_data_get_pixbuf selection_data with
    | Some pixbuf =>
        g_print fmt_image_detected [] ;;
        save_image pixbuf
    | None =>
        match gtk_selection_data_get_text selection_data with
        | Some text =>
            g_print fmt_text_detected [] ;;
            save_text text
        | None =>
            g_print fmt_unsupported [] ;;
            gtk_main_quit
        end
    end.

(** *** [on_clipboard_received_targets] *)

(** The printing loop, from index [i] on: a separator before every
    name but the one at index 0. *)
Fixpoint print_targets (i : nat) (targets : list GdkAtom) : M unit :=
  match targets with
  | [] => ret tt
  | t :: rest =>
      (if Nat.ltb 0 i then g_print ", " [] else ret tt) ;;
      g_print "%s" [gdk_atom_name t] ;;
      print_targets (S i) rest
  end.

Definition on_clipboard_received_targets (targets : list GdkAtom)
  : M unit :=
  match select_target targets with
  | Some target_atom => gtk_clipboard_request_contents target_atom
  | None =>
      g_print fmt_unsupported [] ;;
      g_print fmt_found_targets [] ;;
      print_targets 0 targets ;;
      g_print nl [] ;;
      gtk_main_quit
  end.

(** *** The main loop and [main] *)

(** Delivering a callback: the clipboard answers with what it holds. *)
Definition dispatch (cb : Callback) : M unit :=
  match cb with
  | CbReceivedTargets =>
      on_clipboard_received_targets (clipboard_targets env)
  | CbReceivedContent target =>
      on_clipboard_received_content (clipboard_contents env target)
  end.

Inductive Run (A : Type) : Type :=
| Returned (a : A) (st : State)
| Exited (status : Z) (st : State)
| Blocked (st : State)
| OutOfFuel.

Definition take_callback (st : State) : option (Callback * State) :=
  match pending st with
  | [] => None
  | cb :: rest =>
      Some (cb, mkState (trace st) (files st) rest (quit_requested st))
  end.

(** [gtk_main ()]: deliver callbacks until one of them has called
    [gtk_main_quit].  With nothing left to deliver and no quit, the
    loop waits for ever. *)
Fixpoint gtk_main (fuel : nat) (st : State) : Run unit :=
  match fuel with
  | O => OutOfFuel unit
  | S fuel' =>
      match take_callback st with
      | None => Blocked unit st
      | Some (cb, st1) =>
          let st2 := exec (dispatch cb) st1 in
          if quit_requested st2 then Returned unit tt st2
          else gtk_main fuel' st2
      end
  end.

End Program.

Arguments Returned {A} a st.
Arguments Exited {A} status st.
Arguments Blocked {A} st.
Arguments OutOfFuel {A}.

(** [gtk_init (&argc, &argv)]: returns once the display is open, and
    terminates the program with status 1 when it cannot open one. *)
Definition gtk_init (session : Session) : Z + Env :=
  match session with
  | NoDisplay => inl 1%Z
  | Display env => inr env
  end.

(** The result of [main] is the way the process ends: [Returned] with
    the value of its [return], or [Exited] with the status the toolkit
    terminated it with. *)
Definition main (session : Session) (fs : gmap string string) (fuel : nat)
  : Run Z :=
  match gtk_init session with
  | inl status => Exited status (initial_state fs)
  | inr env =>
      let st := exec gtk_clipboard_request_targets (initial_state fs) in
      match gtk_main env fuel st with
      | Returned _ st' => Returned 0%Z st'
      | Exited status st' => Exited status st'
      | Blocked st' => Blocked st'
      | OutOfFuel => OutOfFuel
      end
  end.

(** The exit status of the process, once it has ended. *)
Definition exit_status (r : Run Z) : option Z :=
  match r with
  | Returned code _ => Some code
  | Exited status _ => Some status
  | Blocked _ | OutOfFuel => None
  end.

(** ** What a trace shows *)

(** [printf] with [%s] directives only. *)
Fixpoint printf (format : string) (args : list string) : string :=
  match format with
  | EmptyString => EmptyString
  | String c rest =>
      match c, rest with
      | "%"%char, String "s"%char rest' =>
          match args with
          | a :: args' => a ++ printf rest' args'
          | [] => printf rest' []
          end
      | _, _ => String c (printf rest args)
      end
  end.

Fixpoint stdout_of (tr : list Event) : string :=
  match tr with
  | [] => EmptyString
  | EvPrint format args :: tr' => printf format args ++ stdout_of tr'
  | _ :: tr' => stdout_of tr'
  end.

Fixpoint stderr_of (tr : list Event) : string :=
  match tr with
  | [] => EmptyString
  | EvPrintErr format args :: tr' => printf format args ++ stderr_of tr'
  | _ :: tr' => stderr_of tr'
  end.

Definition is_dialog (e : Event) : bool :=
  match e with EvDialogRun _ => true | _ => false end.

Definition is_write (e : Event) : bool :=
  match e with
  | EvFileSetContents _ _ | EvPixbufSave _ _ _ => true
  | _ => false
  end.

Definition is_quit (e : Event) : bool :=
  match e with EvMainQuit => true | _ => false end.

Definition count (p : Event -> bool) (tr : list Event) : nat :=
  length (List.filter p tr).

(** ** Vocabulary of the specification *)

(** An identifier with prefix [image/]. *)
Definition image_identifier (a : GdkAtom) : Prop :=
  exists rest, gdk_atom_name a = "image/" +:+ rest.

(** An identifier equal to [text/plain] or [UTF8_STRING]. *)
Definition text_identifier (a : GdkAtom) : Prop :=
  gdk_atom_name a = "text/plain" \/ gdk_atom_name a = "UTF8_STRING".

Definition offers (P : GdkAtom -> Prop) (targets : list GdkAtom) : Prop :=
  exists a, In a targets /\ P a.

(** [t] is the first element of [targets] with property [P]. *)
Definition first_with (P : GdkAtom -> Prop) (targets : list GdkAtom)
    (t : GdkAtom) : Prop :=
  exists before after,
    targets = before ++ t :: after /\ P t /\
    forall a, In a before -> ~ P a.

(** The targets callback asks the clipboard for the contents of [t],
    and does nothing else. *)
Definition requests_contents (targets : list GdkAtom) (t : GdkAtom)
  : Prop :=
  forall st,
    exec (on_clipboard_received_targets targets) st =
    mkState (trace st ++ [EvRequestContents t]) (files st)
            (pending st ++ [CbReceivedContent t]) (quit_requested st).

(** The events of the reporting loop, from index [i] on. *)
Fixpoint print_targets_events (i : nat) (targets : list GdkAtom)
  : list Event :=
  match targets with
  | [] => []
  | t :: rest =>
      (if Nat.ltb 0 i then [EvPrint ", " []] else [])
      ++ EvPrint "%s" [gdk_atom_name t] :: print_targets_events (S i) rest
  end.

Definition is_print (e : Event) : bool :=
  match e with EvPrint _ _ => true | _ => false end.

(** [str] ends in [suffix]. *)
Definition ends_with (str suffix : string) : Prop :=
  exists front, str = front +:+ suffix.

(** ** Sample environments *)

Definition sample_pixbuf : GdkPixbuf := mkPixbuf 1 1 [0%N].

Definition sample_error : GError := mkGError "No space left on device".

(** A clipboard offering [targets], every one of them holding [data]; a
    user who answers every dialog with [response] and [filename]; a disk
    and an encoder that work when [ok] holds, the failing encoder
    removing its destination. *)
Definition sample_env (targets : list GdkAtom) (data : GtkSelectionData)
    (response : GtkResponseType) (filename : option string) (ok : bool)
  : Env :=
  mkEnv targets
        (fun _ => data)
        (fun _ => response)
        (fun _ => filename)
        (fun _ _ => if ok then None else Some sample_error)
        (fun _ _ format =>
           if ok then inl ("encoded as " +:+ format) else inr sample_error)
        (fun _ _ _ => Removed).

Definition text_data : GtkSelectionData :=
  mkSelectionData 6 None (Some ("hello" +:+ nl)).

Definition image_data : GtkSelectionData :=
  mkSelectionData 64 (Some sample_pixbuf) None.

Definition empty_data : GtkSelectionData :=
  mkSelectionData 0 None None.

Definition accepting_env (filename : option string) (ok : bool) : Env :=
  sample_env ["TARGETS"; "UTF8_STRING"] text_data
             GTK_RESPONSE_ACCEPT filename ok.

Definition canceling_env : Env :=
  sample_env ["TARGETS"; "UTF8_STRING"] text_data
             GTK_RESPONSE_CANCEL None true.

(** A state in which the file about to be chosen already exists. *)
Definition old_file_state (filename : string) : State :=
  initial_state (<[filename := "old contents"]> ∅).

(** ** Outcomes of a run *)

(** The messages that end a run: saved, canceled, failed, or nothing
    usable on the clipboard.  They are told apart from the progress
    lines and from the listed target names by their format string. *)
Definition terminal_message (e : Event) : bool :=
  match e with
  | EvPrint format _ =>
      existsb (String.eqb format)
              [fmt_text_saved; fmt_image_saved;
               fmt_text_canceled; fmt_image_canceled; fmt_unsupported]
  | EvPrintErr format _ =>
      existsb (String.eqb format) [fmt_text_error; fmt_image_error]
  | _ => false
  end.

Definition unsupported_message (e : Event) : bool :=
  match e with
  | EvPrint format _ => String.eqb format fmt_unsupported
  | _ => false
  end.

(** Some dialog of the run was accepted and gave no file name. *)
Definition accepted_without_filename (env : Env) (tr : list Event) : Prop :=
  exists dialog,
    In (EvDialogRun dialog) tr /\
    dialog_response env dialog = GTK_RESPONSE_ACCEPT /\
    dialog_filename env dialog = None.

(** What holds of the state in which [main] returns. *)
Record run_summary (env : Env) (st : State) : Prop := mkSummary {
  summary_dialogs : count is_dialog (trace st) <= 1;
  summary_writes : count is_write (trace st) <= 1;
  summary_quits : count is_quit (trace st) = 1;
  summary_last : last (trace st) = Some EvMainQuit;
  summary_pending : pending st = [];
  summary_messages : count terminal_message (trace st) <= 1;
  summary_outcome :
    count is_dialog (trace st) + count unsupported_message (trace st) = 1;
  summary_silent :
    count terminal_message (trace st) = 0 <->
    accepted_without_filename env (trace st)
}.

(** The lifecycle as the specification words it: the run ends, with at
    most one dialog, after exactly one terminal message. *)
Definition one_terminal_message (r : Run Z) : Prop :=
  exists code st,
    r = Returned code st /\
    count is_dialog (trace st) <= 1 /\
    count terminal_message (trace st) = 1.

(** A clipboard that offers nothing the program can save. *)
Definition html_env : Env :=
  sample_env ["TARGETS"; "text/html"] empty_data
             GTK_RESPONSE_CANCEL None true.

(** A clipboard whose text target comes back empty. *)
Definition empty_env : Env :=
  sample_env ["UTF8_STRING"] empty_data GTK_RESPONSE_ACCEPT None true.

(** ** The shapes of a run *)




(** A target one of the two scanning loops can stop at. *)
Definition is_usable_target (a : GdkAtom) : bool :=
  is_image_target a || is_text_target a.

(** The eleven ways through the callback chain, each with the answers of
    the environment that lead to it and the state in which [main]
    returns. *)
Inductive run_shape (env : Env) (fs : gmap string string) : State -> Prop :=
| shape_no_target :
    select_target (clipboard_targets env) = None ->
    run_shape env fs
      (mkState ([EvRequestTargets]
                ++ (EvPrint fmt_unsupported [] :: EvPrint fmt_found_targets []
                    :: print_targets_events 0 (clipboard_targets env)
                    ++ [EvPrint nl []])
                ++ [EvMainQuit])
               fs [] true)
| shape_empty (t : GdkAtom) :
    select_target (clipboard_targets env) = Some t ->
    gtk_selection_data_get_length (clipboard_contents env t) = 0%Z ->
    run_shape env fs
      (mkState [EvRequestTargets; EvRequestContents t;
                EvPrint fmt_unsupported []; EvMainQuit]
               fs [] true)
| shape_undecodable (t : GdkAtom) :
    select_target (clipboard_targets env) = Some t ->
    gtk_selection_data_get_length (clipboard_contents env t) <> 0%Z ->
    gtk_selection_data_get_pixbuf (clipboard_contents env t) = None ->
    gtk_selection_data_get_text (clipboard_contents env t) = None ->
    run_shape env fs
      (mkState [EvRequestTargets; EvRequestContents t;
                EvPrint fmt_unsupported []; EvMainQuit]
               fs [] true)
| shape_image_canceled (t : GdkAtom) (pixbuf : GdkPixbuf) :
    select_target (clipboard_targets env) = Some t ->
    gtk_selection_data_get_length (clipboard_contents env t) <> 0%Z ->
    gtk_selection_data_get_pixbuf (clipboard_contents env t) = Some pixbuf ->
    dialog_response env image_dialog <> GTK_RESPONSE_ACCEPT ->
    run_shape env fs
      (mkState [EvRequestTargets; EvRequestContents t;
                EvPrint fmt_image_detected []; EvDialogRun image_dialog;
                EvPrint fmt_image_canceled []; EvMainQuit]
               fs [] true)
| shape_image_no_filename (t : GdkAtom) (pixbuf : GdkPixbuf) :
    select_target (clipboard_targets env) = Some t ->
    gtk_selection_data_get_length (clipboard_contents env t) <> 0%Z ->
    gtk_selection_data_get_pixbuf (clipboard_contents env t) = Some pixbuf ->
    dialog_response env image_dialog = GTK_RESPONSE_ACCEPT ->
    dialog_filename env image_dialog = None ->
    run_shape env fs
      (mkState [EvRequestTargets; EvRequestContents t;
                EvPrint fmt_image_detected []; EvDialogRun image_dialog;
                EvMainQuit]
               fs [] true)
| shape_image_saved (t : GdkAtom) (pixbuf : GdkPixbuf)
    (filename encoded : string) :
    select_target (clipboard_targets env) = Some t ->
    gtk_selection_data_get_length (clipboard_contents env t) <> 0%Z ->
    gtk_selection_data_get_pixbuf (clipboard_contents env t) = Some pixbuf ->
    dialog_response env image_dialog = GTK_RESPONSE_ACCEPT ->
    dialog_filename env image_dialog = Some filename ->
    pixbuf_save_result env pixbuf filename (image_format filename)
    = inl encoded ->
    run_shape env fs
      (mkState [EvRequestTargets; EvRequestContents t;
                EvPrint fmt_image_detected []; EvDialogRun image_dialog;
                EvPixbufSave pixbuf filename (image_format filename);
                EvPrint fmt_image_saved [filename]; EvMainQuit]
               (<[filename := encoded]> fs) [] true)
| shape_image_failed (t : GdkAtom) (pixbuf : GdkPixbuf)
    (filename : string) (error : GError) :
    select_target (clipboard_targets env) = Some t ->
    gtk_selection_data_get_length (clipboard_contents env t) <> 0%Z ->
    gtk_selection_data_get_pixbuf (clipboard_contents env t) = Some pixbuf ->
    dialog_response env image_dialog = GTK_RESPONSE_ACCEPT ->
    dialog_filename env image_dialog = Some filename ->
    pixbuf_save_result env pixbuf filename (image_format filename)
    = inr error ->
    run_shape env fs
      (mkState [EvRequestTargets; EvRequestContents t;
                EvPrint fmt_image_detected []; EvDialogRun image_dialog;
                EvPixbufSave pixbuf filename (image_format filename);
                EvPrintErr fmt_image_error [message error]; EvMainQuit]
               (after_failed_save
                  (pixbuf_save_leaves env pixbuf filename
                                      (image_format filename))
                  filename fs)
               [] true)
| shape_text_canceled (t : GdkAtom) (text : string) :
    select_target (clipboard_targets env) = Some t ->
    gtk_selection_data_get_length (clipboard_contents env t) <> 0%Z ->
    gtk_selection_data_get_pixbuf (clipboard_contents env t) = None ->
    gtk_selection_data_get_text (clipboard_contents env t) = Some text ->
    dialog_response env text_dialog <> GTK_RESPONSE_ACCEPT ->
    run_shape env fs
      (mkState [EvRequestTargets; EvRequestContents t;
                EvPrint fmt_text_detected []; EvDialogRun text_dialog;
                EvPrint fmt_text_canceled []; EvMainQuit]
               fs [] true)
| shape_text_no_filename (t : GdkAtom) (text : string) :
    select_target (clipboard_targets env) = Some t ->
    gtk_selection_data_get_length (clipboard_contents env t) <> 0%Z ->
    gtk_selection_data_get_pixbuf (clipboard_contents env t) = None ->
    gtk_selection_data_get_text (clipboard_contents env t) = Some text ->
    dialog_response env text_dialog = GTK_RESPONSE_ACCEPT ->
    dialog_filename env text_dialog = None ->
    run_shape env fs
      (mkState [EvRequestTargets; EvRequestContents t;
                EvPrint fmt_text_detected []; EvDialogRun text_dialog;
                EvMainQuit]
               fs [] true)
| shape_text_saved (t : GdkAtom) (text filename : string) :
    select_target (clipboard_targets env) = Some t ->
    gtk_selection_data_get_length (clipboard_contents env t) <> 0%Z ->
    gtk_selection_data_get_pixbuf (clipboard_contents env t) = None ->
    gtk_selection_data_get_text (clipboard_contents env t) = Some text ->
    dialog_response env text_dialog = GTK_RESPONSE_ACCEPT ->
    dialog_filename env text_dialog = Some filename ->
    file_set_contents_result env filename text = None ->
    run_shape env fs
      (mkState [EvRequestTargets; EvRequestContents t;
                EvPrint fmt_text_detected []; EvDialogRun text_dialog;
                EvFileSetContents filename text;
                EvPrint fmt_text_saved [filename]; EvMainQuit]
               (<[filename := text]> fs) [] true)
| shape_text_failed (t : GdkAtom) (text filename : string)
    (error : GError) :
    select_target (clipboard_targets env) = Some t ->
    gtk_selection_data_get_length (clipboard_contents env t) <> 0%Z ->
    gtk_selection_data_get_pixbuf (clipboard_contents env t) = None ->
    gtk_selection_data_get_text (clipboard_contents env t) = Some text ->
    dialog_response env text_dialog = GTK_RESPONSE_ACCEPT ->
    dialog_filename env text_dialog = Some filename ->
    file_set_contents_result env filename text = Some error ->
    run_shape env fs
      (mkState [EvRequestTargets; EvRequestContents t;
                EvPrint fmt_text_detected []; EvDialogRun text_dialog;
                EvFileSetContents filename text;
                EvPrintErr fmt_text_error [message error]; EvMainQuit]
               fs [] true).

(** ** Further sample environments *)

(** A clipboard that offers an image after a text target. *)
Definition image_env (filename : option string) (ok : bool) : Env :=
  sample_env ["TARGETS"; "UTF8_STRING"; "image/png"] image_data
             GTK_RESPONSE_ACCEPT filename ok.

(** A clipboard whose only usable target is a text one, holding text
    that the image decoder accepts as well (the source of a drawing). *)
Definition drawing_data : GtkSelectionData :=
  mkSelectionData 64 (Some sample_pixbuf) (Some "<svg/>").

Definition drawing_env : Env :=
  sample_env ["TARGETS"; "UTF8_STRING"] drawing_data
             GTK_RESPONSE_CANCEL None true.

(** A clipboard that offers nothing at all. *)
Definition bare_env : Env :=
  sample_env [] empty_data GTK_RESPONSE_CANCEL None true.

(** The exit code as the specification words it: whenever the process
    ends, its status is 0. *)
Definition exits_with_zero (r : Run Z) : Prop :=
  forall status, exit_status r = Some status -> status = 0%Z.

(** * Properties *)

(** ** The string helpers *)

Section StringFacts.

Lemma string_app_cons (c : ascii) (s1 s2 : string) :
  String c s1 +:+ s2 = String c (s1 +:+ s2).
Proof. reflexivity. Qed.

Lemma string_length_app (s1 s2 : string) :
  String.length (s1 +:+ s2) = String.length s1 + String.length s2.
Proof.
  induction s1 as [|c s1 IH]; [reflexivity|].
  rewrite string_app_cons. simpl. now rewrite IH.
Qed.

Lemma string_app_nil_r (s : string) : s +:+ EmptyString = s.
Proof.
  induction s as [|c s IH]; [reflexivity|].
  now rewrite string_app_cons, IH.
Qed.

Lemma string_app_assoc (s1 s2 s3 : string) :
  (s1 +:+ s2) +:+ s3 = s1 +:+ (s2 +:+ s3).
Proof.
  induction s1 as [|c s1 IH]; [reflexivity|].
  now rewrite !string_app_cons, IH.
Qed.

(** [g_str_has_prefix] holds exactly of the strings that start with
    the prefix. *)
Lemma g_str_has_prefix_spec (str prefix : string) :
  g_str_has_prefix str prefix = true <->
  exists rest, str = prefix +:+ rest.
Proof.
  revert str.
  induction prefix as [|p prefix IH]; intros str; simpl.
  - split; [intros _; now exists str | reflexivity].
  - destruct str as [|c str].
    + split; [discriminate | intros [rest H]; discriminate].
    + destruct (Ascii.eqb_spec c p) as [->|Hne].
      * rewrite IH. split; intros [rest H]; exists rest.
        -- now rewrite string_app_cons, H.
        -- rewrite string_app_cons in H. now injection H.
      * split; [discriminate|].
        intros [rest H]. rewrite string_app_cons in H.
        injection H as Hc _. contradiction.
Qed.

Lemma str_offset_app (front back : string) :
  str_offset (String.length front) (front +:+ back) = back.
Proof.
  induction front as [|c front IH]; [reflexivity|].
  rewrite string_app_cons. simpl. exact IH.
Qed.

Lemma str_offset_split (n : nat) (str : string) :
  n <= String.length str ->
  exists front,
    str = front +:+ str_offset n str /\ String.length front = n.
Proof.
  revert str.
  induction n as [|n IH]; intros str Hn; simpl.
  - now exists EmptyString.
  - destruct str as [|c str]; simpl in Hn; [lia|].
    destruct (IH str) as [front [Hs Hl]]; [lia|].
    exists (String c front). rewrite string_app_cons. simpl.
    split; [now rewrite <- Hs | now rewrite Hl].
Qed.

(** [g_str_has_suffix] holds exactly of the strings that end with
    the suffix. *)
Lemma g_str_has_suffix_spec (str suffix : string) :
  g_str_has_suffix str suffix = true <->
  exists front, str = front +:+ suffix.
Proof.
  unfold g_str_has_suffix.
  destruct (Nat.ltb_spec (String.length str) (String.length suffix))
    as [Hlt|Hge].
  - split; [discriminate|].
    intros [front ->]. rewrite string_length_app in Hlt. lia.
  - rewrite String.eqb_eq. split.
    + intros Heq.
      destruct (str_offset_split
                  (String.length str - String.length suffix) str)
        as [front [Hs _]]; [lia|].
      exists front. now rewrite Heq in Hs.
    + intros [front ->].
      rewrite string_length_app.
      replace (String.length front + String.length suffix
               - String.length suffix) with (String.length front) by lia.
      apply str_offset_app.
Qed.

End StringFacts.

(** ** Target negotiation *)

Section Negotiation.

Lemma is_image_target_spec (a : GdkAtom) :
  is_image_target a = true <-> image_identifier a.
Proof. apply g_str_has_prefix_spec. Qed.

Lemma is_text_target_spec (a : GdkAtom) :
  is_text_target a = true <-> text_identifier a.
Proof.
  unfold is_text_target, g_strcmp0_eq, text_identifier.
  now rewrite orb_true_iff, !String.eqb_eq.
Qed.

Variable hit : GdkAtom -> bool.

Lemma first_target_Some (targets : list GdkAtom) (t : GdkAtom) :
  first_target hit targets = Some t ->
  exists before after,
    targets = before ++ t :: after /\ hit t = true /\
    forall a, In a before -> hit a = false.
Proof.
  induction targets as [|x targets IH]; simpl; [discriminate|].
  destruct (hit x) eqn:Hx.
  - intros [= ->]. exists [], targets. simpl. tauto.
  - intros Hf. destruct (IH Hf) as (before & after & -> & Ht & Hb).
    exists (x :: before), after. simpl. repeat split; [exact Ht|].
    intros a [<-|Ha]; [exact Hx | now apply Hb].
Qed.

Lemma first_target_None (targets : list GdkAtom) :
  first_target hit targets = None <->
  forall a, In a targets -> hit a = false.
Proof.
  induction targets as [|x targets IH]; simpl.
  - split; [intros _ a [] | reflexivity].
  - destruct (hit x) eqn:Hx.
    + split; [discriminate|].
      intros H. specialize (H x (or_introl eq_refl)). congruence.
    + rewrite IH. split.
      * intros H a [<-|Ha]; [exact Hx | now apply H].
      * intros H a Ha. apply H. now right.
Qed.

Lemma first_target_found (targets : list GdkAtom) (a : GdkAtom) :
  In a targets -> hit a = true ->
  exists t, first_target hit targets = Some t.
Proof.
  intros Ha Hhit.
  destruct (first_target hit targets) as [t|] eqn:Hf; [now exists t|].
  rewrite first_target_None in Hf. specialize (Hf a Ha). congruence.
Qed.

End Negotiation.

Lemma first_image_target (targets : list GdkAtom) (t : GdkAtom) :
  first_target is_image_target targets = Some t ->
  first_with image_identifier targets t.
Proof.
  intros Hf.
  destruct (first_target_Some _ _ _ Hf) as (before & after & -> & Ht & Hb).
  exists before, after. repeat split; [now apply is_image_target_spec|].
  intros a Ha Himg. apply is_image_target_spec in Himg.
  rewrite (Hb a Ha) in Himg. discriminate.
Qed.

Lemma first_text_target (targets : list GdkAtom) (t : GdkAtom) :
  first_target is_text_target targets = Some t ->
  first_with text_identifier targets t.
Proof.
  intros Hf.
  destruct (first_target_Some _ _ _ Hf) as (before & after & -> & Ht & Hb).
  exists before, after. repeat split; [now apply is_text_target_spec|].
  intros a Ha Htxt. apply is_text_target_spec in Htxt.
  rewrite (Hb a Ha) in Htxt. discriminate.
Qed.

Lemma no_image_target (targets : list GdkAtom) :
  ~ offers image_identifier targets ->
  first_target is_image_target targets = None.
Proof.
  intros Hno. apply first_target_None. intros a Ha.
  destruct (is_image_target a) eqn:Hi; [|reflexivity].
  exfalso. apply Hno. exists a. split; [exact Ha|].
  now apply is_image_target_spec.
Qed.

Lemma no_text_target (targets : list GdkAtom) :
  ~ offers text_identifier targets ->
  first_target is_text_target targets = None.
Proof.
  intros Hno. apply first_target_None. intros a Ha.
  destruct (is_text_target a) eqn:Hi; [|reflexivity].
  exfalso. apply Hno. exists a. split; [exact Ha|].
  now apply is_text_target_spec.
Qed.

Lemma scan_no_image (targets : list GdkAtom) :
  first_target is_image_target targets = None ->
  ~ offers image_identifier targets.
Proof.
  intros Hscan (a & Ha & Himg).
  rewrite first_target_None in Hscan.
  apply is_image_target_spec in Himg.
  rewrite (Hscan a Ha) in Himg. discriminate.
Qed.

Lemma scan_no_text (targets : list GdkAtom) :
  first_target is_text_target targets = None ->
  ~ offers text_identifier targets.
Proof.
  intros Hscan (a & Ha & Htxt).
  rewrite first_target_None in Hscan.
  apply is_text_target_spec in Htxt.
  rewrite (Hscan a Ha) in Htxt. discriminate.
Qed.

Lemma selected_is_requested (targets : list GdkAtom) (t : GdkAtom) :
  select_target targets = Some t -> requests_contents targets t.
Proof.
  intros Hsel st. unfold on_clipboard_received_targets.
  rewrite Hsel. reflexivity.
Qed.

(** ** Traces *)

Section TraceFacts.

Lemma stdout_of_app (tr1 tr2 : list Event) :
  stdout_of (tr1 ++ tr2) = stdout_of tr1 +:+ stdout_of tr2.
Proof.
  induction tr1 as [|e tr1 IH]; [reflexivity|].
  destruct e; simpl; try exact IH.
  now rewrite string_app_assoc, IH.
Qed.


Lemma count_app (p : Event -> bool) (tr1 tr2 : list Event) :
  count p (tr1 ++ tr2) = count p tr1 + count p tr2.
Proof. unfold count. now rewrite List.filter_app, length_app. Qed.

Lemma count_cons (p : Event -> bool) (e : Event) (tr : list Event) :
  count p (e :: tr) = (if p e then 1 else 0) + count p tr.
Proof. unfold count. simpl. now destruct (p e). Qed.

Lemma count_prints (p : Event -> bool) (tr : list Event) :
  (forall format args, p (EvPrint format args) = false) ->
  Forall (fun e => is_print e = true) tr ->
  count p tr = 0.
Proof.
  intros Hp Hall. induction Hall as [|e tr He _ IH]; [reflexivity|].
  destruct e; try discriminate He.
  unfold count in *. simpl. now rewrite Hp.
Qed.

End TraceFacts.

(** ** Reporting the offered targets *)

Lemma print_targets_run (i : nat) (targets : list GdkAtom) (st : State) :
  print_targets i targets st =
  (tt, mkState (trace st ++ print_targets_events i targets) (files st)
               (pending st) (quit_requested st)).
Proof.
  revert i st.
  induction targets as [|t rest IH]; intros i st; simpl.
  - rewrite app_nil_r. now destruct st.
  - unfold bind. destruct (Nat.ltb 0 i); simpl; rewrite IH; simpl;
      now rewrite <- !app_assoc.
Qed.

Lemma print_targets_events_prints (i : nat) (targets : list GdkAtom) :
  Forall (fun e => is_print e = true) (print_targets_events i targets).
Proof.
  revert i. induction targets as [|t rest IH]; intros i; simpl.
  - constructor.
  - destruct (Nat.ltb 0 i); simpl; repeat constructor; apply IH.
Qed.

Lemma print_targets_events_rest (i : nat) (t : GdkAtom)
    (rest : list GdkAtom) :
  String.concat ", " (map gdk_atom_name (t :: rest)) =
  gdk_atom_name t +:+ stdout_of (print_targets_events (S i) rest).
Proof.
  revert i t.
  induction rest as [|r rest IH]; intros i t.
  - simpl. now rewrite string_app_nil_r.
  - change (String.concat ", " (map gdk_atom_name (t :: r :: rest)))
      with (gdk_atom_name t +:+ ", "
            +:+ String.concat ", " (map gdk_atom_name (r :: rest))).
    rewrite (IH (S i) r). simpl.
    now rewrite string_app_nil_r.
Qed.

Lemma print_targets_events_stdout (targets : list GdkAtom) :
  stdout_of (print_targets_events 0 targets) =
  String.concat ", " (map gdk_atom_name targets).
Proof.
  destruct targets as [|t rest]; [reflexivity|].
  rewrite (print_targets_events_rest 0). simpl.
  now rewrite string_app_nil_r.
Qed.

Lemma gtk_main_quit_run (st : State) :
  gtk_main_quit st =
  (tt, mkState (trace st ++ [EvMainQuit]) (files st) (pending st) true).
Proof. reflexivity. Qed.

(** The events of the branch that found no target to fetch. *)
Lemma no_selection_run (targets : list GdkAtom) (st : State) :
  select_target targets = None ->
  on_clipboard_received_targets targets st =
  (tt, mkState (trace st
                ++ (EvPrint fmt_unsupported [] :: EvPrint fmt_found_targets []
                    :: print_targets_events 0 targets ++ [EvPrint nl []])
                ++ [EvMainQuit])
               (files st) (pending st) true).
Proof.
  intros Hsel. unfold on_clipboard_received_targets. rewrite Hsel.
  unfold bind. simpl. rewrite print_targets_run, gtk_main_quit_run. simpl.
  now rewrite <- !app_assoc.
Qed.

(** C1: the negotiation selects (and requests) the first identifier with
    prefix [image/] if the list offers one, wherever it stands and
    whatever text identifiers are present; otherwise the first identifier
    equal to [text/plain] or [UTF8_STRING] if there is one; otherwise
    nothing is selected and no contents are requested. *)
Theorem target_negotiation_policy (targets : list GdkAtom) :
  (offers image_identifier targets ->
   exists t, select_target targets = Some t /\
             first_with image_identifier targets t /\
             requests_contents targets t) /\
  (~ offers image_identifier targets ->
   offers text_identifier targets ->
   exists t, select_target targets = Some t /\
             first_with text_identifier targets t /\
             requests_contents targets t) /\
  (~ offers image_identifier targets ->
   ~ offers text_identifier targets ->
   select_target targets = None /\
   forall st,
     pending (exec (on_clipboard_received_targets targets) st)
     = pending st).
Proof.
  split; [|split].
  - intros (a & Ha & Himg). apply is_image_target_spec in Himg.
    destruct (first_target_found _ _ _ Ha Himg) as [t Ht].
    assert (Hsel : select_target targets = Some t)
      by (unfold select_target; now rewrite Ht).
    exists t. split; [exact Hsel|]. split.
    + now apply first_image_target.
    + now apply selected_is_requested.
  - intros Hnoimg (a & Ha & Htxt). apply is_text_target_spec in Htxt.
    destruct (first_target_found _ _ _ Ha Htxt) as [t Ht].
    assert (Hsel : select_target targets = Some t)
      by (unfold select_target; now rewrite (no_image_target _ Hnoimg)).
    exists t. split; [exact Hsel|]. split.
    + now apply first_text_target.
    + now apply selected_is_requested.
  - intros Hnoimg Hnotxt.
    assert (Hsel : select_target targets = None).
    { unfold select_target.
      now rewrite (no_image_target _ Hnoimg), (no_text_target _ Hnotxt). }
    split; [exact Hsel|]. intros st.
    unfold exec. now rewrite (no_selection_run _ _ Hsel).
Qed.

(** C1, at concrete target lists: an image identifier behind a text one,
    a text identifier alone, and neither. *)
Lemma target_negotiation_policy_witness :
  (exists t, select_target ["UTF8_STRING"; "image/png"; "image/jpeg"] = Some t
             /\ first_with image_identifier
                  ["UTF8_STRING"; "image/png"; "image/jpeg"] t
             /\ requests_contents
                  ["UTF8_STRING"; "image/png"; "image/jpeg"] t) /\
  (exists t, select_target ["TARGETS"; "UTF8_STRING"; "text/plain"] = Some t
             /\ first_with text_identifier
                  ["TARGETS"; "UTF8_STRING"; "text/plain"] t
             /\ requests_contents
                  ["TARGETS"; "UTF8_STRING"; "text/plain"] t) /\
  (select_target ["TARGETS"; "text/html"] = None /\
   forall st,
     pending (exec (on_clipboard_received_targets ["TARGETS"; "text/html"]) st)
     = pending st).
Proof.
  split; [|split].
  - apply (proj1 (target_negotiation_policy _)).
    exists "image/png". split; [simpl; tauto|]. now exists "png".
  - apply (proj1 (proj2 (target_negotiation_policy _))).
    + apply scan_no_image. reflexivity.
    + exists "UTF8_STRING". split; [simpl; tauto|]. now right.
  - apply (proj2 (proj2 (target_negotiation_policy _))).
    + apply scan_no_image. reflexivity.
    + apply scan_no_text. reflexivity.
Defined.

(** ** The save routines *)

(** Closes a goal about a routine once its last call is the quit. *)
Ltac finish_run :=
  rewrite ?gtk_main_quit_run; simpl; rewrite <- ?app_assoc; reflexivity.

Section SaveRoutines.

Variable env : Env.

(** The four ways through [save_text]. *)

Lemma save_text_canceled_run (text : string) (st : State) :
  dialog_response env text_dialog <> GTK_RESPONSE_ACCEPT ->
  save_text env text st =
  (tt, mkState (trace st ++ [EvDialogRun text_dialog;
                             EvPrint fmt_text_canceled []; EvMainQuit])
               (files st) (pending st) true).
Proof.
  intros Hresp.
  unfold save_text, bind, gtk_native_dialog_run, ret. simpl.
  destruct (dialog_response env text_dialog);
    try (contradiction Hresp; reflexivity);
    simpl; finish_run.
Qed.

Lemma save_text_no_filename_run (text : string) (st : State) :
  dialog_response env text_dialog = GTK_RESPONSE_ACCEPT ->
  dialog_filename env text_dialog = None ->
  save_text env text st =
  (tt, mkState (trace st ++ [EvDialogRun text_dialog; EvMainQuit])
               (files st) (pending st) true).
Proof.
  intros Hresp Hname.
  unfold save_text, bind, gtk_native_dialog_run,
    gtk_file_chooser_get_filename, ret.
  simpl. rewrite Hresp, Hname. simpl.
  finish_run.
Qed.

Lemma save_text_saved_run (text filename : string) (st : State) :
  dialog_response env text_dialog = GTK_RESPONSE_ACCEPT ->
  dialog_filename env text_dialog = Some filename ->
  file_set_contents_result env filename text = None ->
  save_text env text st =
  (tt, mkState (trace st ++ [EvDialogRun text_dialog;
                             EvFileSetContents filename text;
                             EvPrint fmt_text_saved [filename];
                             EvMainQuit])
               (<[filename := text]> (files st)) (pending st) true).
Proof.
  intros Hresp Hname Hok.
  unfold save_text, bind, gtk_native_dialog_run,
    gtk_file_chooser_get_filename, g_file_set_contents, ret.
  simpl. rewrite Hresp, Hname. simpl. rewrite Hok. simpl.
  finish_run.
Qed.

Lemma save_text_failed_run (text filename : string) (error : GError)
    (st : State) :
  dialog_response env text_dialog = GTK_RESPONSE_ACCEPT ->
  dialog_filename env text_dialog = Some filename ->
  file_set_contents_result env filename text = Some error ->
  save_text env text st =
  (tt, mkState (trace st ++ [EvDialogRun text_dialog;
                             EvFileSetContents filename text;
                             EvPrintErr fmt_text_error [message error];
                             EvMainQuit])
               (files st) (pending st) true).
Proof.
  intros Hresp Hname Hfail.
  unfold save_text, bind, gtk_native_dialog_run,
    gtk_file_chooser_get_filename, g_file_set_contents, ret.
  simpl. rewrite Hresp, Hname. simpl. rewrite Hfail. simpl.
  finish_run.
Qed.

(** The four ways through [save_image]. *)

Lemma save_image_canceled_run (pixbuf : GdkPixbuf) (st : State) :
  dialog_response env image_dialog <> GTK_RESPONSE_ACCEPT ->
  save_image env pixbuf st =
  (tt, mkState (trace st ++ [EvDialogRun image_dialog;
                             EvPrint fmt_image_canceled []; EvMainQuit])
               (files st) (pending st) true).
Proof.
  intros Hresp.
  unfold save_image, bind, gtk_native_dialog_run, ret. simpl.
  destruct (dialog_response env image_dialog);
    try (contradiction Hresp; reflexivity);
    simpl; finish_run.
Qed.

Lemma save_image_no_filename_run (pixbuf : GdkPixbuf) (st : State) :
  dialog_response env image_dialog = GTK_RESPONSE_ACCEPT ->
  dialog_filename env image_dialog = None ->
  save_image env pixbuf st =
  (tt, mkState (trace st ++ [EvDialogRun image_dialog; EvMainQuit])
               (files st) (pending st) true).
Proof.
  intros Hresp Hname.
  unfold save_image, bind, gtk_native_dialog_run,
    gtk_file_chooser_get_filename, ret.
  simpl. rewrite Hresp, Hname. simpl.
  finish_run.
Qed.

Lemma save_image_saved_run (pixbuf : GdkPixbuf)
    (filename encoded : string) (st : State) :
  dialog_response env image_dialog = GTK_RESPONSE_ACCEPT ->
  dialog_filename env image_dialog = Some filename ->
  pixbuf_save_result env pixbuf filename (image_format filename)
  = inl encoded ->
  save_image env pixbuf st =
  (tt, mkState (trace st ++ [EvDialogRun image_dialog;
                             EvPixbufSave pixbuf filename
                                          (image_format filename);
                             EvPrint fmt_image_saved [filename];
                             EvMainQuit])
               (<[filename := encoded]> (files st)) (pending st) true).
Proof.
  intros Hresp Hname Hok.
  unfold save_image, bind, gtk_native_dialog_run,
    gtk_file_chooser_get_filename, gdk_pixbuf_save, ret.
  simpl. rewrite Hresp, Hname. simpl. rewrite Hok. simpl.
  finish_run.
Qed.

Lemma save_image_failed_run (pixbuf : GdkPixbuf) (filename : string)
    (error : GError) (st : State) :
  dialog_response env image_dialog = GTK_RESPONSE_ACCEPT ->
  dialog_filename env image_dialog = Some filename ->
  pixbuf_save_result env pixbuf filename (image_format filename)
  = inr error ->
  save_image env pixbuf st =
  (tt, mkState (trace st ++ [EvDialogRun image_dialog;
                             EvPixbufSave pixbuf filename
                                          (image_format filename);
                             EvPrintErr fmt_image_error [message error];
                             EvMainQuit])
               (after_failed_save
                  (pixbuf_save_leaves env pixbuf filename
                                      (image_format filename))
                  filename (files st))
               (pending st) true).
Proof.
  intros Hresp Hname Hfail.
  unfold save_image, bind, gtk_native_dialog_run,
    gtk_file_chooser_get_filename, gdk_pixbuf_save, ret.
  simpl. rewrite Hresp, Hname. simpl. rewrite Hfail. simpl.
  finish_run.
Qed.

(** C2: when the text dialog is accepted with a file name, the one
    write of the routine hands [g_file_set_contents] that name and the
    text payload itself; when the write succeeds the file holds exactly
    the payload, whatever it held before, and every other file is
    untouched. *)
Theorem save_text_writes_payload (text filename : string) (st : State) :
  dialog_response env text_dialog = GTK_RESPONSE_ACCEPT ->
  dialog_filename env text_dialog = Some filename ->
  (exists report,
     trace (exec (save_text env text) st) =
     trace st ++ [EvDialogRun text_dialog;
                  EvFileSetContents filename text;
                  report; EvMainQuit]) /\
  (file_set_contents_result env filename text = None ->
   files (exec (save_text env text) st) = <[filename := text]> (files st)
   /\ files (exec (save_text env text) st) !! filename = Some text
   /\ forall other, other <> filename ->
        files (exec (save_text env text) st) !! other
        = files st !! other).
Proof.
  intros Hresp Hname. unfold exec.
  destruct (file_set_contents_result env filename text) as [error|] eqn:Hw.
  - rewrite (save_text_failed_run _ _ _ _ Hresp Hname Hw). simpl.
    split; [|discriminate].
    now exists (EvPrintErr fmt_text_error [message error]).
  - rewrite (save_text_saved_run _ _ _ Hresp Hname Hw). simpl.
    split; [now exists (EvPrint fmt_text_saved [filename])|].
    intros _. split; [reflexivity|]. split.
    + apply lookup_insert_eq.
    + intros other Hne. now apply lookup_insert_ne.
Qed.

Lemma image_format_jpeg (filename : string) :
  image_format filename = "jpeg" <->
  ends_with filename ".jpg" \/ ends_with filename ".jpeg".
Proof.
  unfold image_format, ends_with.
  rewrite <- !g_str_has_suffix_spec, <- orb_true_iff.
  destruct (g_str_has_suffix filename ".jpg"
            || g_str_has_suffix filename ".jpeg");
    split; intros H; try reflexivity; discriminate H.
Qed.

Lemma image_format_png (filename : string) :
  image_format filename = "png" <->
  ~ (ends_with filename ".jpg" \/ ends_with filename ".jpeg").
Proof.
  rewrite <- image_format_jpeg. unfold image_format.
  destruct (g_str_has_suffix filename ".jpg"
            || g_str_has_suffix filename ".jpeg");
    split; intros H; try reflexivity; try discriminate H.
  - now contradiction H.
  - intros H'. discriminate H'.
Qed.

(** C3: when the image dialog is accepted with a file name, the
    encoder is called once, on that name, with format [jpeg] exactly
    when the name ends in [.jpg] or [.jpeg], and with format [png] for
    every other name. *)
Theorem save_image_format (pixbuf : GdkPixbuf) (filename : string)
    (st : State) :
  dialog_response env image_dialog = GTK_RESPONSE_ACCEPT ->
  dialog_filename env image_dialog = Some filename ->
  exists format report,
    trace (exec (save_image env pixbuf) st) =
    trace st ++ [EvDialogRun image_dialog;
                 EvPixbufSave pixbuf filename format;
                 report; EvMainQuit] /\
    (format = "jpeg" <->
     ends_with filename ".jpg" \/ ends_with filename ".jpeg") /\
    (format = "png" <->
     ~ (ends_with filename ".jpg" \/ ends_with filename ".jpeg")).
Proof.
  intros Hresp Hname.
  exists (image_format filename). unfold exec.
  destruct (pixbuf_save_result env pixbuf filename (image_format filename))
    as [encoded|error] eqn:Hres.
  - exists (EvPrint fmt_image_saved [filename]).
    rewrite (save_image_saved_run _ _ _ _ Hresp Hname Hres).
    split; [reflexivity|].
    split; [apply image_format_jpeg | apply image_format_png].
  - exists (EvPrintErr fmt_image_error [message error]).
    rewrite (save_image_failed_run _ _ _ _ Hresp Hname Hres).
    split; [reflexivity|].
    split; [apply image_format_jpeg | apply image_format_png].
Qed.

(** C6: when either dialog is answered with anything but acceptance,
    the routine prints its canceled message, asks the main loop to
    quit, and does nothing else: no write is attempted and the files
    are as they were. *)
Theorem save_canceled (text : string) (pixbuf : GdkPixbuf) (st : State) :
  (dialog_response env text_dialog <> GTK_RESPONSE_ACCEPT ->
   exec (save_text env text) st =
   mkState (trace st ++ [EvDialogRun text_dialog;
                         EvPrint fmt_text_canceled []; EvMainQuit])
           (files st) (pending st) true
   /\ printf fmt_text_canceled [] = "Text save canceled." +:+ nl) /\
  (dialog_response env image_dialog <> GTK_RESPONSE_ACCEPT ->
   exec (save_image env pixbuf) st =
   mkState (trace st ++ [EvDialogRun image_dialog;
                         EvPrint fmt_image_canceled []; EvMainQuit])
           (files st) (pending st) true
   /\ printf fmt_image_canceled [] = "Image save canceled." +:+ nl).
Proof.
  split; intros Hresp; (split; [|reflexivity]); unfold exec.
  - now rewrite (save_text_canceled_run _ _ Hresp).
  - now rewrite (save_image_canceled_run _ _ Hresp).
Qed.

(** C7: when the write of the text, or the encoding and write of the
    image, fails, the routine prints the error's message on standard
    error, after its own prefix, and asks the main loop to quit: the
    failed attempt is the only one, and the files are as that attempt
    left them. *)
Theorem save_failure_reported (text : string) (pixbuf : GdkPixbuf)
    (filename : string) (error : GError) (st : State) :
  (dialog_response env text_dialog = GTK_RESPONSE_ACCEPT ->
   dialog_filename env text_dialog = Some filename ->
   file_set_contents_result env filename text = Some error ->
   exec (save_text env text) st =
   mkState (trace st ++ [EvDialogRun text_dialog;
                         EvFileSetContents filename text;
                         EvPrintErr fmt_text_error [message error];
                         EvMainQuit])
           (files st) (pending st) true
   /\ printf fmt_text_error [message error]
      = "Error saving text file: " +:+ message error +:+ nl) /\
  (dialog_response env image_dialog = GTK_RESPONSE_ACCEPT ->
   dialog_filename env image_dialog = Some filename ->
   pixbuf_save_result env pixbuf filename (image_format filename)
   = inr error ->
   exec (save_image env pixbuf) st =
   mkState (trace st ++ [EvDialogRun image_dialog;
                         EvPixbufSave pixbuf filename
                                      (image_format filename);
                         EvPrintErr fmt_image_error [message error];
                         EvMainQuit])
           (after_failed_save
              (pixbuf_save_leaves env pixbuf filename
                                  (image_format filename))
              filename (files st))
           (pending st) true
   /\ printf fmt_image_error [message error]
      = "Error saving image: " +:+ message error +:+ nl).
Proof.
  split; intros Hresp Hname Hfail; (split; [|reflexivity]); unfold exec.
  - now rewrite (save_text_failed_run _ _ _ _ Hresp Hname Hfail).
  - now rewrite (save_image_failed_run _ _ _ _ Hresp Hname Hfail).
Qed.

(** C10: when either dialog is accepted but gives no file name, the
    routine writes nothing and prints nothing: after the dialog the
    only thing it does is ask the main loop to quit. *)
Theorem save_without_filename (text : string) (pixbuf : GdkPixbuf)
    (st : State) :
  (dialog_response env text_dialog = GTK_RESPONSE_ACCEPT ->
   dialog_filename env text_dialog = None ->
   exec (save_text env text) st =
   mkState (trace st ++ [EvDialogRun text_dialog; EvMainQuit])
           (files st) (pending st) true) /\
  (dialog_response env image_dialog = GTK_RESPONSE_ACCEPT ->
   dialog_filename env image_dialog = None ->
   exec (save_image env pixbuf) st =
   mkState (trace st ++ [EvDialogRun image_dialog; EvMainQuit])
           (files st) (pending st) true).
Proof.
  split; intros Hresp Hname; unfold exec.
  - now rewrite (save_text_no_filename_run _ _ Hresp Hname).
  - now rewrite (save_image_no_filename_run _ _ Hresp Hname).
Qed.

End SaveRoutines.

(** C2, for the payload [hello] and a newline, saved over an existing
    [/tmp/out.txt]. *)
Lemma save_text_writes_payload_witness :
  (exists report,
     trace (exec (save_text (accepting_env (Some "/tmp/out.txt") true)
                            ("hello" +:+ nl))
                 (old_file_state "/tmp/out.txt")) =
     trace (old_file_state "/tmp/out.txt")
     ++ [EvDialogRun text_dialog;
         EvFileSetContents "/tmp/out.txt" ("hello" +:+ nl);
         report; EvMainQuit]) /\
  (files (exec (save_text (accepting_env (Some "/tmp/out.txt") true)
                          ("hello" +:+ nl))
               (old_file_state "/tmp/out.txt"))
   = <["/tmp/out.txt" := "hello" +:+ nl]>
       (files (old_file_state "/tmp/out.txt"))
   /\ files (exec (save_text (accepting_env (Some "/tmp/out.txt") true)
                             ("hello" +:+ nl))
                  (old_file_state "/tmp/out.txt")) !! "/tmp/out.txt"
      = Some ("hello" +:+ nl)
   /\ forall other, other <> "/tmp/out.txt" ->
        files (exec (save_text (accepting_env (Some "/tmp/out.txt") true)
                               ("hello" +:+ nl))
                    (old_file_state "/tmp/out.txt")) !! other
        = files (old_file_state "/tmp/out.txt") !! other).
Proof.
  destruct (save_text_writes_payload
              (accepting_env (Some "/tmp/out.txt") true)
              ("hello" +:+ nl) "/tmp/out.txt"
              (old_file_state "/tmp/out.txt") eq_refl eq_refl)
    as [Hwrite Hfile].
  split; [exact Hwrite | exact (Hfile eq_refl)].
Defined.

(** C3, for a file name ending in [.jpeg]. *)
Lemma save_image_format_witness :
  exists format report,
    trace (exec (save_image (accepting_env (Some "/tmp/photo.jpeg") true)
                            sample_pixbuf)
                (initial_state ∅)) =
    trace (initial_state ∅)
    ++ [EvDialogRun image_dialog;
        EvPixbufSave sample_pixbuf "/tmp/photo.jpeg" format;
        report; EvMainQuit] /\
    (format = "jpeg" <->
     ends_with "/tmp/photo.jpeg" ".jpg"
     \/ ends_with "/tmp/photo.jpeg" ".jpeg") /\
    (format = "png" <->
     ~ (ends_with "/tmp/photo.jpeg" ".jpg"
        \/ ends_with "/tmp/photo.jpeg" ".jpeg")).
Proof.
  exact (save_image_format (accepting_env (Some "/tmp/photo.jpeg") true)
           sample_pixbuf "/tmp/photo.jpeg" (initial_state ∅)
           eq_refl eq_refl).
Defined.

(** C6, for a user who cancels. *)
Lemma save_canceled_witness :
  (exec (save_text canceling_env "hello") (initial_state ∅) =
   mkState (trace (initial_state ∅)
            ++ [EvDialogRun text_dialog;
                EvPrint fmt_text_canceled []; EvMainQuit])
           (files (initial_state ∅)) (pending (initial_state ∅)) true
   /\ printf fmt_text_canceled [] = "Text save canceled." +:+ nl) /\
  (exec (save_image canceling_env sample_pixbuf) (initial_state ∅) =
   mkState (trace (initial_state ∅)
            ++ [EvDialogRun image_dialog;
                EvPrint fmt_image_canceled []; EvMainQuit])
           (files (initial_state ∅)) (pending (initial_state ∅)) true
   /\ printf fmt_image_canceled [] = "Image save canceled." +:+ nl).
Proof.
  destruct (save_canceled canceling_env "hello" sample_pixbuf
              (initial_state ∅)) as [Htext Himage].
  split; [apply Htext | apply Himage]; discriminate.
Defined.

(** C7, for a disk that is full. *)
Lemma save_failure_reported_witness :
  (exec (save_text (accepting_env (Some "/tmp/out.txt") false) "hello")
        (initial_state ∅) =
   mkState (trace (initial_state ∅)
            ++ [EvDialogRun text_dialog;
                EvFileSetContents "/tmp/out.txt" "hello";
                EvPrintErr fmt_text_error [message sample_error];
                EvMainQuit])
           (files (initial_state ∅)) (pending (initial_state ∅)) true
   /\ printf fmt_text_error [message sample_error]
      = "Error saving text file: " +:+ message sample_error +:+ nl) /\
  (exec (save_image (accepting_env (Some "/tmp/out.txt") false)
                    sample_pixbuf)
        (initial_state ∅) =
   mkState (trace (initial_state ∅)
            ++ [EvDialogRun image_dialog;
                EvPixbufSave sample_pixbuf "/tmp/out.txt"
                             (image_format "/tmp/out.txt");
                EvPrintErr fmt_image_error [message sample_error];
                EvMainQuit])
           (after_failed_save Removed "/tmp/out.txt"
                              (files (initial_state ∅)))
           (pending (initial_state ∅)) true
   /\ printf fmt_image_error [message sample_error]
      = "Error saving image: " +:+ message sample_error +:+ nl).
Proof.
  destruct (save_failure_reported
              (accepting_env (Some "/tmp/out.txt") false)
              "hello" sample_pixbuf "/tmp/out.txt" sample_error
              (initial_state ∅)) as [Htext Himage].
  split; [apply Htext | apply Himage]; reflexivity.
Defined.

(** C10, for an accepted dialog that gives no file name. *)
Lemma save_without_filename_witness :
  exec (save_text (accepting_env None true) "hello") (initial_state ∅) =
  mkState (trace (initial_state ∅) ++ [EvDialogRun text_dialog; EvMainQuit])
          (files (initial_state ∅)) (pending (initial_state ∅)) true /\
  exec (save_image (accepting_env None true) sample_pixbuf)
       (initial_state ∅) =
  mkState (trace (initial_state ∅) ++ [EvDialogRun image_dialog; EvMainQuit])
          (files (initial_state ∅)) (pending (initial_state ∅)) true.
Proof.
  destruct (save_without_filename (accepting_env None true) "hello"
              sample_pixbuf (initial_state ∅)) as [Htext Himage].
  split; [apply Htext | apply Himage]; reflexivity.
Defined.

(** ** The contents callback *)

Section ContentCallback.

Variable env : Env.

Lemma content_empty_run (selection_data : GtkSelectionData) (st : State) :
  gtk_selection_data_get_length selection_data = 0%Z ->
  on_clipboard_received_content env selection_data st =
  (tt, mkState (trace st ++ [EvPrint fmt_unsupported []; EvMainQuit])
               (files st) (pending st) true).
Proof.
  intros Hlen. unfold on_clipboard_received_content.
  rewrite Hlen. unfold bind. simpl. finish_run.
Qed.

Lemma content_undecodable_run (selection_data : GtkSelectionData)
    (st : State) :
  gtk_selection_data_get_pixbuf selection_data = None ->
  gtk_selection_data_get_text selection_data = None ->
  on_clipboard_received_content env selection_data st =
  (tt, mkState (trace st ++ [EvPrint fmt_unsupported []; EvMainQuit])
               (files st) (pending st) true).
Proof.
  intros Hpix Htxt. unfold on_clipboard_received_content.
  rewrite Hpix, Htxt.
  destruct (gtk_selection_data_get_length selection_data =? 0)%Z;
    unfold bind; simpl; finish_run.
Qed.

Lemma content_image_run (selection_data : GtkSelectionData)
    (pixbuf : GdkPixbuf) (st : State) :
  gtk_selection_data_get_length selection_data <> 0%Z ->
  gtk_selection_data_get_pixbuf selection_data = Some pixbuf ->
  on_clipboard_received_content env selection_data st =
  save_image env pixbuf
    (mkState (trace st ++ [EvPrint fmt_image_detected []])
             (files st) (pending st) (quit_requested st)).
Proof.
  intros Hlen Hpix. unfold on_clipboard_received_content.
  apply Z.eqb_neq in Hlen. rewrite Hlen, Hpix. reflexivity.
Qed.

Lemma content_text_run (selection_data : GtkSelectionData)
    (text : string) (st : State) :
  gtk_selection_data_get_length selection_data <> 0%Z ->
  gtk_selection_data_get_pixbuf selection_data = None ->
  gtk_selection_data_get_text selection_data = Some text ->
  on_clipboard_received_content env selection_data st =
  save_text env text
    (mkState (trace st ++ [EvPrint fmt_text_detected []])
             (files st) (pending st) (quit_requested st)).
Proof.
  intros Hlen Hpix Htxt. unfold on_clipboard_received_content.
  apply Z.eqb_neq in Hlen. rewrite Hlen, Hpix, Htxt. reflexivity.
Qed.

End ContentCallback.

(** ** Whole runs *)

Section Runs.

Variable env : Env.
Variable fs : gmap string string.

(** The state in which the targets callback is delivered. *)
Lemma main_no_selection (fuel : nat) :
  select_target (clipboard_targets env) = None ->
  main (Display env) fs (S fuel) =
  Returned 0%Z
    (mkState ([EvRequestTargets]
              ++ (EvPrint fmt_unsupported [] :: EvPrint fmt_found_targets []
                  :: print_targets_events 0 (clipboard_targets env)
                  ++ [EvPrint nl []])
              ++ [EvMainQuit])
             fs [] true).
Proof.
  intros Hsel. unfold main, exec. simpl.
  unfold exec. rewrite (no_selection_run _ _ Hsel). reflexivity.
Qed.

Lemma main_selection (fuel : nat) (t : GdkAtom) (st : State) :
  select_target (clipboard_targets env) = Some t ->
  on_clipboard_received_content env (clipboard_contents env t)
    (mkState [EvRequestTargets; EvRequestContents t] fs [] false)
  = (tt, st) ->
  quit_requested st = true ->
  main (Display env) fs (S (S fuel)) = Returned 0%Z st.
Proof.
  intros Hsel Hrun Hquit. unfold main, exec. simpl.
  unfold exec, on_clipboard_received_targets. rewrite Hsel. simpl.
  rewrite Hrun. simpl. now rewrite Hquit.
Qed.

End Runs.

(** ** The summary of a run *)

Lemma response_accept_dec (response : GtkResponseType) :
  {response = GTK_RESPONSE_ACCEPT} + {response <> GTK_RESPONSE_ACCEPT}.
Proof. destruct response; (left; reflexivity) || (right; discriminate). Qed.

Lemma report_count (p : Event -> bool) (i : nat) (targets : list GdkAtom) :
  p (EvPrint ", " []) = false ->
  (forall name, p (EvPrint "%s" [name]) = false) ->
  count p (print_targets_events i targets) = 0.
Proof.
  intros Hsep Hname. revert i.
  induction targets as [|t rest IH]; intros i; [reflexivity|].
  simpl. destruct (Nat.ltb 0 i); simpl.
  - rewrite !count_cons, Hsep, Hname. apply IH.
  - rewrite count_cons, Hname. apply IH.
Qed.

Lemma report_no_dialog (dialog : GtkFileChooserNative) (i : nat)
    (targets : list GdkAtom) :
  ~ In (EvDialogRun dialog) (print_targets_events i targets).
Proof.
  intros Hin.
  pose proof (print_targets_events_prints i targets) as Hall.
  rewrite List.Forall_forall in Hall.
  specialize (Hall _ Hin). discriminate Hall.
Qed.

(** The summary of a run whose trace is known event by event. *)
Ltac no_silent_dialog :=
  let d := fresh "dialog" in
  let Hin := fresh "Hin" in
  let Hr := fresh "Hresp" in
  let Hn := fresh "Hname" in
  intros (d & Hin & Hr & Hn); exfalso; simpl in Hin;
  repeat (destruct Hin as [Hin|Hin]; [try discriminate Hin|]);
  try contradiction;
  repeat match goal with
         | H : EvDialogRun _ = EvDialogRun _ |- _ =>
             injection H as <-; congruence
         end.

Ltac explicit_summary :=
  constructor; simpl;
  [ vm_compute; lia | vm_compute; lia | vm_compute; reflexivity
  | reflexivity | reflexivity | vm_compute; lia | vm_compute; reflexivity
  | split; [ vm_compute; intros H; discriminate H | no_silent_dialog ] ].

Ltac silent_summary dialog :=
  constructor; simpl;
  [ vm_compute; lia | vm_compute; lia | vm_compute; reflexivity
  | reflexivity | reflexivity | vm_compute; lia | vm_compute; reflexivity
  | split;
    [ intros _; exists dialog; simpl; tauto
    | intros _; vm_compute; reflexivity ] ].

Section Summary.

Variable env : Env.
Variable fs : gmap string string.

Lemma no_selection_summary (targets : list GdkAtom) :
  run_summary env
    (mkState ([EvRequestTargets]
              ++ (EvPrint fmt_unsupported [] :: EvPrint fmt_found_targets []
                  :: print_targets_events 0 targets ++ [EvPrint nl []])
              ++ [EvMainQuit])
             fs [] true).
Proof.
  assert (Hcount : forall p,
             p (EvPrint ", " []) = false ->
             (forall name, p (EvPrint "%s" [name]) = false) ->
             count p ([EvRequestTargets]
                      ++ (EvPrint fmt_unsupported []
                          :: EvPrint fmt_found_targets []
                          :: print_targets_events 0 targets
                          ++ [EvPrint nl []])
                      ++ [EvMainQuit])
             = count p [EvRequestTargets; EvPrint fmt_unsupported [];
                        EvPrint fmt_found_targets []; EvPrint nl [];
                        EvMainQuit]).
  { intros p Hsep Hname. simpl. rewrite <- app_assoc. simpl.
    rewrite !count_cons, count_app, (report_count p 0 targets Hsep Hname),
      !count_cons.
    lia. }
  constructor; cbn [trace pending].
  - rewrite Hcount by reflexivity. vm_compute. lia.
  - rewrite Hcount by reflexivity. vm_compute. lia.
  - rewrite Hcount by reflexivity. reflexivity.
  - rewrite !app_assoc. apply last_snoc.
  - reflexivity.
  - rewrite Hcount by reflexivity. vm_compute. lia.
  - rewrite !Hcount by reflexivity. reflexivity.
  - rewrite Hcount by reflexivity. split.
    + vm_compute. intros H. discriminate H.
    + intros (dialog & Hin & _). exfalso.
      apply in_app_or in Hin. destruct Hin as [[Hin|[]]|Hin];
        [discriminate Hin|].
      apply in_app_or in Hin. destruct Hin as [Hin|[Hin|[]]];
        [|discriminate Hin].
      destruct Hin as [Hin|[Hin|Hin]]; try discriminate Hin.
      apply in_app_or in Hin. destruct Hin as [Hin|[Hin|[]]];
        [|discriminate Hin].
      exact (report_no_dialog _ _ _ Hin).
Qed.

(** With fuel for two deliveries, [main] returns 0, in a state of
    which the summary holds. *)
Lemma main_run_summary (fuel : nat) :
  exists st,
    main (Display env) fs (S (S fuel)) = Returned 0%Z st /\ run_summary env st.
Proof.
  destruct (select_target (clipboard_targets env)) as [t|] eqn:Hsel.
  2:{ eexists. split; [apply (main_no_selection _ _ (S fuel) Hsel)|].
      apply no_selection_summary. }
  destruct (Z.eq_dec (gtk_selection_data_get_length
                        (clipboard_contents env t)) 0%Z) as [Hlen|Hlen].
  { eexists. split.
    - eapply main_selection;
        [exact Hsel | apply content_empty_run; exact Hlen | reflexivity].
    - explicit_summary. }
  destruct (gtk_selection_data_get_pixbuf (clipboard_contents env t))
    as [pixbuf|] eqn:Hpix.
  - destruct (response_accept_dec (dialog_response env image_dialog))
      as [Hresp|Hresp].
    + destruct (dialog_filename env image_dialog) as [filename|] eqn:Hname.
      * destruct (pixbuf_save_result env pixbuf filename
                    (image_format filename)) as [encoded|error] eqn:Hres.
        -- eexists. split.
           ++ eapply main_selection;
                [ exact Hsel
                | rewrite (content_image_run _ _ _ _ Hlen Hpix);
                  apply (save_image_saved_run _ _ _ _ _ Hresp Hname Hres)
                | reflexivity ].
           ++ explicit_summary.
        -- eexists. split.
           ++ eapply main_selection;
                [ exact Hsel
                | rewrite (content_image_run _ _ _ _ Hlen Hpix);
                  apply (save_image_failed_run _ _ _ _ _ Hresp Hname Hres)
                | reflexivity ].
           ++ explicit_summary.
      * eexists. split.
        -- eapply main_selection;
             [ exact Hsel
             | rewrite (content_image_run _ _ _ _ Hlen Hpix);
               apply (save_image_no_filename_run _ _ _ Hresp Hname)
             | reflexivity ].
        -- silent_summary image_dialog.
    + eexists. split.
      * eapply main_selection;
          [ exact Hsel
          | rewrite (content_image_run _ _ _ _ Hlen Hpix);
            apply (save_image_canceled_run _ _ _ Hresp)
          | reflexivity ].
      * explicit_summary.
  - destruct (gtk_selection_data_get_text (clipboard_contents env t))
      as [text|] eqn:Htxt.
    2:{ eexists. split.
        - eapply main_selection;
            [ exact Hsel
            | apply (content_undecodable_run _ _ _ Hpix Htxt)
            | reflexivity ].
        - explicit_summary. }
    destruct (response_accept_dec (dialog_response env text_dialog))
      as [Hresp|Hresp].
    + destruct (dialog_filename env text_dialog) as [filename|] eqn:Hname.
      * destruct (file_set_contents_result env filename text)
          as [error|] eqn:Hres.
        -- eexists. split.
           ++ eapply main_selection;
                [ exact Hsel
                | rewrite (content_text_run _ _ _ _ Hlen Hpix Htxt);
                  apply (save_text_failed_run _ _ _ _ _ Hresp Hname Hres)
                | reflexivity ].
           ++ explicit_summary.
        -- eexists. split.
           ++ eapply main_selection;
                [ exact Hsel
                | rewrite (content_text_run _ _ _ _ Hlen Hpix Htxt);
                  apply (save_text_saved_run _ _ _ _ Hresp Hname Hres)
                | reflexivity ].
           ++ explicit_summary.
      * eexists. split.
        -- eapply main_selection;
             [ exact Hsel
             | rewrite (content_text_run _ _ _ _ Hlen Hpix Htxt);
               apply (save_text_no_filename_run _ _ _ Hresp Hname)
             | reflexivity ].
        -- silent_summary text_dialog.
    + eexists. split.
      * eapply main_selection;
          [ exact Hsel
          | rewrite (content_text_run _ _ _ _ Hlen Hpix Htxt);
            apply (save_text_canceled_run _ _ _ Hresp)
          | reflexivity ].
      * explicit_summary.
Qed.

End Summary.

(** ** Claims about whole runs *)

(** C4: a payload of length zero is handled as one that decodes neither
    as an image nor as text: the callback prints the empty-or-unsupported
    message and asks the main loop to quit, and that is all; in a whole
    run no dialog is opened and no target is listed. *)
Theorem empty_payload_is_no_content (env : Env)
    (selection_data : GtkSelectionData) (st : State) :
  gtk_selection_data_get_length selection_data = 0%Z ->
  exec (on_clipboard_received_content env selection_data) st =
  mkState (trace st ++ [EvPrint fmt_unsupported []; EvMainQuit])
          (files st) (pending st) true /\
  printf fmt_unsupported [] =
  "Clipboard is empty or contains an unsupported format." +:+ nl /\
  (forall undecodable,
     gtk_selection_data_get_pixbuf undecodable = None ->
     gtk_selection_data_get_text undecodable = None ->
     exec (on_clipboard_received_content env undecodable) st =
     exec (on_clipboard_received_content env selection_data) st) /\
  (forall fs fuel t,
     select_target (clipboard_targets env) = Some t ->
     clipboard_contents env t = selection_data ->
     main (Display env) fs (S (S fuel)) =
     Returned 0%Z
       (mkState [EvRequestTargets; EvRequestContents t;
                 EvPrint fmt_unsupported []; EvMainQuit]
                fs [] true)).
Proof.
  intros Hlen. unfold exec.
  rewrite (content_empty_run env _ st Hlen). simpl.
  split; [reflexivity|]. split; [reflexivity|]. split.
  - intros undecodable Hpix Htxt.
    now rewrite (content_undecodable_run env _ st Hpix Htxt).
  - intros fs fuel t Hsel Hdata.
    eapply main_selection;
      [ exact Hsel
      | rewrite Hdata, (content_empty_run env _ _ Hlen); reflexivity
      | reflexivity ].
Qed.

(** C4, for a text target that comes back with length zero. *)
Lemma empty_payload_is_no_content_witness :
  exec (on_clipboard_received_content empty_env empty_data)
       (initial_state ∅) =
  mkState (trace (initial_state ∅)
           ++ [EvPrint fmt_unsupported []; EvMainQuit])
          (files (initial_state ∅)) (pending (initial_state ∅)) true /\
  main (Display empty_env) ∅ 2 =
  Returned 0%Z
    (mkState [EvRequestTargets; EvRequestContents "UTF8_STRING";
              EvPrint fmt_unsupported []; EvMainQuit]
             ∅ [] true).
Proof.
  destruct (empty_payload_is_no_content empty_env empty_data
              (initial_state ∅) eq_refl)
    as (Hrun & _ & _ & Hmain).
  split; [exact Hrun | exact (Hmain ∅ 0 "UTF8_STRING" eq_refl eq_refl)].
Defined.

(** C5: when the clipboard offers neither an [image/] identifier nor
    [text/plain] nor [UTF8_STRING], the run prints the
    empty-or-unsupported line and then every offered identifier, in order,
    separated by commas; it opens no dialog, attempts no write, leaves the
    files as they were, requests nothing further and returns. *)
Theorem unusable_targets_reported (env : Env) (fs : gmap string string)
    (fuel : nat) :
  ~ offers image_identifier (clipboard_targets env) ->
  ~ offers text_identifier (clipboard_targets env) ->
  exists st report,
    main (Display env) fs (S fuel) = Returned 0%Z st /\
    trace st = [EvRequestTargets] ++ report ++ [EvMainQuit] /\
    Forall (fun e => is_print e = true) report /\
    stdout_of (trace st) =
    fmt_unsupported +:+ fmt_found_targets
    +:+ String.concat ", " (map gdk_atom_name (clipboard_targets env))
    +:+ nl /\
    count is_dialog (trace st) = 0 /\
    count is_write (trace st) = 0 /\
    files st = fs /\
    pending st = [].
Proof.
  intros Hnoimg Hnotxt.
  assert (Hsel : select_target (clipboard_targets env) = None).
  { unfold select_target.
    now rewrite (no_image_target _ Hnoimg), (no_text_target _ Hnotxt). }
  assert (Hprints :
            Forall (fun e => is_print e = true)
                   (EvPrint fmt_unsupported [] :: EvPrint fmt_found_targets []
                    :: print_targets_events 0 (clipboard_targets env)
                    ++ [EvPrint nl []])).
  { repeat constructor. apply Forall_app. split.
    - apply print_targets_events_prints.
    - repeat constructor. }
  eexists. eexists. split; [apply (main_no_selection _ _ _ Hsel)|].
  cbn [trace files pending].
  split; [reflexivity|]. split; [exact Hprints|]. split.
  { rewrite !stdout_of_app.
    change (stdout_of [EvRequestTargets]) with EmptyString.
    change (stdout_of [EvMainQuit]) with EmptyString.
    rewrite string_app_nil_r.
    change (EmptyString +:+ ?x) with x.
    change (stdout_of (EvPrint fmt_unsupported []
                       :: EvPrint fmt_found_targets []
                       :: print_targets_events 0 (clipboard_targets env)
                       ++ [EvPrint nl []]))
      with (fmt_unsupported +:+ fmt_found_targets
            +:+ stdout_of (print_targets_events 0 (clipboard_targets env)
                           ++ [EvPrint nl []])).
    rewrite stdout_of_app, print_targets_events_stdout.
    reflexivity. }
  split; [|split; [|split; reflexivity]].
  - rewrite !count_app, (count_prints is_dialog _ (fun _ _ => eq_refl) Hprints).
    reflexivity.
  - rewrite !count_app, (count_prints is_write _ (fun _ _ => eq_refl) Hprints).
    reflexivity.
Qed.

(** C5, for a clipboard that offers [TARGETS] and [text/html] only. *)
Lemma unusable_targets_reported_witness :
  exists st report,
    main (Display html_env) ∅ 1 = Returned 0%Z st /\
    trace st = [EvRequestTargets] ++ report ++ [EvMainQuit] /\
    Forall (fun e => is_print e = true) report /\
    stdout_of (trace st) =
    fmt_unsupported +:+ fmt_found_targets
    +:+ String.concat ", " (map gdk_atom_name (clipboard_targets html_env))
    +:+ nl /\
    count is_dialog (trace st) = 0 /\
    count is_write (trace st) = 0 /\
    files st = ∅ /\
    pending st = [].
Proof.
  apply (unusable_targets_reported html_env ∅ 0).
  - apply scan_no_image. reflexivity.
  - apply scan_no_text. reflexivity.
Defined.

(** C8, as the specification words it, fails: a run in which the text
    dialog is accepted without a file name returns after one dialog and
    no terminal message at all. *)
Lemma one_terminal_message_counterexample :
  main (Display (accepting_env None true)) ∅ 2 =
  Returned 0%Z
    (mkState [EvRequestTargets; EvRequestContents "UTF8_STRING";
              EvPrint fmt_text_detected []; EvDialogRun text_dialog;
              EvMainQuit]
             ∅ [] true) /\
  ~ one_terminal_message (main (Display (accepting_env None true)) ∅ 2).
Proof.
  assert (Hrun :
            main (Display (accepting_env None true)) ∅ 2 =
            Returned 0%Z
              (mkState [EvRequestTargets; EvRequestContents "UTF8_STRING";
                        EvPrint fmt_text_detected []; EvDialogRun text_dialog;
                        EvMainQuit]
                       ∅ [] true))
    by reflexivity.
  split; [exact Hrun|].
  intros (code & st & Hret & _ & Hmsg).
  rewrite Hrun in Hret. injection Hret as _ <-.
  vm_compute in Hmsg. discriminate Hmsg.
Qed.

(** C8, amended: with fuel for two deliveries every run on an open
    display returns, having shown at most one dialog, attempted at most
    one write and called [gtk_main_quit] exactly once, as its last act,
    with nothing left to deliver.  It either ran one dialog or printed the
    empty-or-unsupported message once, never both.  It printed exactly
    one terminal message, except when the dialog was accepted without a
    file name: then it printed none. *)
Theorem run_lifecycle (env : Env) (fs : gmap string string) (fuel : nat) :
  exists st,
    main (Display env) fs (S (S fuel)) = Returned 0%Z st /\
    count is_dialog (trace st) <= 1 /\
    count is_write (trace st) <= 1 /\
    count is_quit (trace st) = 1 /\
    last (trace st) = Some EvMainQuit /\
    pending st = [] /\
    count is_dialog (trace st) + count unsupported_message (trace st) = 1 /\
    (count terminal_message (trace st) = 1
     /\ ~ accepted_without_filename env (trace st)
     \/ count terminal_message (trace st) = 0
        /\ accepted_without_filename env (trace st)).
Proof.
  destruct (main_run_summary env fs fuel) as (st & Hrun & Hsum).
  destruct Hsum as [Hd Hw Hq Hl Hp Hm Ho Hs].
  exists st. repeat (split; [assumption|]).
  destruct (count terminal_message (trace st)) as [|[|n]] eqn:Hcount.
  - right. split; [reflexivity|]. now apply Hs.
  - left. split; [reflexivity|]. intros Hacc. apply Hs in Hacc. discriminate.
  - lia.
Qed.

(** C8, amended, for a run that saves text. *)
Lemma run_lifecycle_witness :
  exists st,
    main (Display (accepting_env (Some "/tmp/out.txt") true)) ∅ 2
    = Returned 0%Z st /\
    count is_dialog (trace st) <= 1 /\
    count is_write (trace st) <= 1 /\
    count is_quit (trace st) = 1 /\
    last (trace st) = Some EvMainQuit /\
    pending st = [] /\
    count is_dialog (trace st) + count unsupported_message (trace st) = 1 /\
    (count terminal_message (trace st) = 1
     /\ ~ accepted_without_filename
          (accepting_env (Some "/tmp/out.txt") true) (trace st)
     \/ count terminal_message (trace st) = 0
        /\ accepted_without_filename
             (accepting_env (Some "/tmp/out.txt") true) (trace st)).
Proof.
  exact (run_lifecycle (accepting_env (Some "/tmp/out.txt") true) ∅ 0).
Defined.

(** C9, as the specification words it, fails: when [gtk_init] cannot
    open the display it terminates the process with status 1, before
    anything is requested from the clipboard. *)
Lemma exit_code_counterexample :
  main NoDisplay ∅ 2 = Exited 1%Z (initial_state ∅) /\
  ~ exits_with_zero (main NoDisplay ∅ 2).
Proof.
  split; [reflexivity|].
  intros Hzero. specialize (Hzero 1%Z eq_refl). discriminate Hzero.
Qed.

(** C9, amended: once [gtk_init] has opened the display the exit code
    is 0 on every path: with fuel for two deliveries every run returns 0,
    whatever the clipboard, the user, the disk and the encoder answer,
    failures included, and [main] returns no other value.  The process
    ends with another status only when [gtk_init] cannot open the
    display: then it is terminated with status 1, having done nothing. *)
Theorem exit_code_by_session (session : Session) (fs : gmap string string)
    (fuel : nat) :
  match session with
  | Display env =>
      exists st, main (Display env) fs (S (S fuel)) = Returned 0%Z st
  | NoDisplay => main NoDisplay fs fuel = Exited 1%Z (initial_state fs)
  end /\
  (forall code st, main session fs fuel = Returned code st -> code = 0%Z) /\
  (forall status st,
     main session fs fuel = Exited status st ->
     session = NoDisplay /\ status = 1%Z /\ st = initial_state fs).
Proof.
  destruct session as [|env].
  - split; [reflexivity|]. split.
    + intros code st Hrun. discriminate Hrun.
    + intros status st [= <- <-]. now repeat split.
  - split; [|split].
    + destruct (main_run_summary env fs fuel) as (st & Hrun & _).
      now exists st.
    + intros code st. unfold main. simpl.
      destruct (gtk_main env fuel _); try discriminate.
      now intros [= <- _].
    + intros status st. unfold main. simpl.
      destruct (gtk_main env fuel _) as [a st'|status' st'|st'|] eqn:Hloop;
        try discriminate.
      exfalso. revert Hloop.
      generalize (exec gtk_clipboard_request_targets (initial_state fs)).
      induction fuel as [|fuel IH]; intros st0; simpl; [discriminate|].
      destruct (take_callback st0) as [[cb st1]|]; [|discriminate].
      destruct (quit_requested (exec (dispatch env cb) st1));
        [discriminate | apply IH].
Qed.

(** C9, amended, for a run whose write fails and for a host without a
    display. *)
Lemma exit_code_by_session_witness :
  (exists st,
     main (Display (accepting_env (Some "/tmp/out.txt") false)) ∅ 2
     = Returned 0%Z st) /\
  (exists code st,
     main (Display (accepting_env (Some "/tmp/out.txt") false)) ∅ 2
     = Returned code st /\ code = 0%Z) /\
  main NoDisplay ∅ 0 = Exited 1%Z (initial_state ∅).
Proof.
  split; [|split].
  - exact (proj1 (exit_code_by_session
                    (Display (accepting_env (Some "/tmp/out.txt") false))
                    ∅ 0)).
  - eexists. eexists. split; [reflexivity|].
    eapply (proj1 (proj2 (exit_code_by_session
                            (Display (accepting_env (Some "/tmp/out.txt")
                                                    false))
                            ∅ 2))).
    reflexivity.
  - exact (proj1 (exit_code_by_session NoDisplay ∅ 0)).
Defined.

(** * Further properties of the callback chain *)

(** ** Every run has one of eleven shapes *)

Lemma main_run_shape (env : Env) (fs : gmap string string) (fuel : nat) :
  exists st,
    main (Display env) fs (S (S fuel)) = Returned 0%Z st /\ run_shape env fs st.
Proof.
  destruct (select_target (clipboard_targets env)) as [t|] eqn:Hsel.
  2:{ eexists. split; [apply (main_no_selection _ _ (S fuel) Hsel)|].
      now apply shape_no_target. }
  destruct (Z.eq_dec (gtk_selection_data_get_length
                        (clipboard_contents env t)) 0%Z) as [Hlen|Hlen].
  { eexists. split.
    - eapply main_selection;
        [exact Hsel | apply content_empty_run; exact Hlen | reflexivity].
    - now apply shape_empty. }
  destruct (gtk_selection_data_get_pixbuf (clipboard_contents env t))
    as [pixbuf|] eqn:Hpix.
  - destruct (response_accept_dec (dialog_response env image_dialog))
      as [Hresp|Hresp].
    + destruct (dialog_filename env image_dialog) as [filename|] eqn:Hname.
      * destruct (pixbuf_save_result env pixbuf filename
                    (image_format filename)) as [encoded|error] eqn:Hres.
        -- eexists. split.
           ++ eapply main_selection;
                [ exact Hsel
                | rewrite (content_image_run _ _ _ _ Hlen Hpix);
                  apply (save_image_saved_run _ _ _ _ _ Hresp Hname Hres)
                | reflexivity ].
           ++ now apply (shape_image_saved env fs t pixbuf filename encoded).
        -- eexists. split.
           ++ eapply main_selection;
                [ exact Hsel
                | rewrite (content_image_run _ _ _ _ Hlen Hpix);
                  apply (save_image_failed_run _ _ _ _ _ Hresp Hname Hres)
                | reflexivity ].
           ++ now apply (shape_image_failed env fs t pixbuf filename error).
      * eexists. split.
        -- eapply main_selection;
             [ exact Hsel
             | rewrite (content_image_run _ _ _ _ Hlen Hpix);
               apply (save_image_no_filename_run _ _ _ Hresp Hname)
             | reflexivity ].
        -- now apply (shape_image_no_filename env fs t pixbuf).
    + eexists. split.
      * eapply main_selection;
          [ exact Hsel
          | rewrite (content_image_run _ _ _ _ Hlen Hpix);
            apply (save_image_canceled_run _ _ _ Hresp)
          | reflexivity ].
      * now apply (shape_image_canceled env fs t pixbuf).
  - destruct (gtk_selection_data_get_text (clipboard_contents env t))
      as [text|] eqn:Htxt.
    2:{ eexists. split.
        - eapply main_selection;
            [ exact Hsel
            | apply (content_undecodable_run _ _ _ Hpix Htxt)
            | reflexivity ].
        - now apply shape_undecodable. }
    destruct (response_accept_dec (dialog_response env text_dialog))
      as [Hresp|Hresp].
    + destruct (dialog_filename env text_dialog) as [filename|] eqn:Hname.
      * destruct (file_set_contents_result env filename text)
          as [error|] eqn:Hres.
        -- eexists. split.
           ++ eapply main_selection;
                [ exact Hsel
                | rewrite (content_text_run _ _ _ _ Hlen Hpix Htxt);
                  apply (save_text_failed_run _ _ _ _ _ Hresp Hname Hres)
                | reflexivity ].
           ++ now apply (shape_text_failed env fs t text filename error).
        -- eexists. split.
           ++ eapply main_selection;
                [ exact Hsel
                | rewrite (content_text_run _ _ _ _ Hlen Hpix Htxt);
                  apply (save_text_saved_run _ _ _ _ Hresp Hname Hres)
                | reflexivity ].
           ++ now apply (shape_text_saved env fs t text filename).
      * eexists. split.
        -- eapply main_selection;
             [ exact Hsel
             | rewrite (content_text_run _ _ _ _ Hlen Hpix Htxt);
               apply (save_text_no_filename_run _ _ _ Hresp Hname)
             | reflexivity ].
        -- now apply (shape_text_no_filename env fs t text).
    + eexists. split.
      * eapply main_selection;
          [ exact Hsel
          | rewrite (content_text_run _ _ _ _ Hlen Hpix Htxt);
            apply (save_text_canceled_run _ _ _ Hresp)
          | reflexivity ].
      * now apply (shape_text_canceled env fs t text).
Qed.

(** ** More on target negotiation *)

Lemma first_target_filter (hit keep : GdkAtom -> bool)
    (targets : list GdkAtom) :
  (forall a, hit a = true -> keep a = true) ->
  first_target hit (List.filter keep targets) = first_target hit targets.
Proof.
  intros Hkeep.
  induction targets as [|x targets IH]; [reflexivity|].
  simpl. destruct (keep x) eqn:Hx; simpl.
  - now rewrite IH.
  - destruct (hit x) eqn:Hhit; [|exact IH].
    rewrite (Hkeep x Hhit) in Hx. discriminate.
Qed.

(** X1: identifiers that are neither [image/] ones nor one of the two
    text names have no influence on the negotiation: striking them from
    the list, wherever they stand, leaves the selected target the same. *)
Theorem select_target_ignores_unusable (targets : list GdkAtom) :
  select_target (List.filter is_usable_target targets)
  = select_target targets.
Proof.
  unfold select_target.
  rewrite !first_target_filter; [reflexivity| |];
    intros a Ha; unfold is_usable_target; rewrite Ha;
    [apply orb_true_r | reflexivity].
Qed.

Lemma string_app_inv_head (front s1 s2 : string) :
  front +:+ s1 = front +:+ s2 -> s1 = s2.
Proof.
  induction front as [|c front IH]; [trivial|].
  rewrite !string_app_cons. intros [= H]. now apply IH.
Qed.

Lemma text_plain_with_parameters (rest : string) :
  rest <> EmptyString ->
  is_usable_target ("text/plain" +:+ rest) = false.
Proof.
  intros Hrest. unfold is_usable_target.
  apply orb_false_iff. split; [reflexivity|].
  unfold is_text_target, g_strcmp0_eq, gdk_atom_name.
  apply orb_false_iff. split; apply String.eqb_neq; intros H.
  - apply Hrest. apply (string_app_inv_head "text/plain").
    now rewrite string_app_nil_r.
  - rewrite string_app_cons in H. discriminate H.
Qed.

(** X2: the text names are matched whole, not as prefixes: a clipboard
    whose identifiers are all [text/plain] followed by something more (a
    charset parameter, say) gets no target selected. *)
Theorem text_target_needs_exact_name (targets : list GdkAtom) :
  (forall a, In a targets ->
     exists rest, rest <> EmptyString /\
                  gdk_atom_name a = "text/plain" +:+ rest) ->
  select_target targets = None.
Proof.
  intros Hall.
  assert (Hnone : forall a, In a targets -> is_usable_target a = false).
  { intros a Ha. destruct (Hall a Ha) as (rest & Hrest & Hname).
    unfold gdk_atom_name in Hname. rewrite Hname.
    now apply text_plain_with_parameters. }
  unfold select_target.
  assert (Himg : first_target is_image_target targets = None).
  { apply first_target_None. intros a Ha.
    specialize (Hnone a Ha). unfold is_usable_target in Hnone.
    now apply orb_false_iff in Hnone. }
  rewrite Himg. apply first_target_None. intros a Ha.
  specialize (Hnone a Ha). unfold is_usable_target in Hnone.
  now apply orb_false_iff in Hnone.
Qed.

(** X2, for the identifier a browser offers. *)
Lemma text_target_needs_exact_name_witness :
  select_target ["text/plain;charset=utf-8"] = None.
Proof.
  apply text_target_needs_exact_name.
  intros a [<-|[]]. exists ";charset=utf-8". split; [discriminate|reflexivity].
Defined.

(** ** More on the image format *)

Lemma str_offset_app_add (front back : string) (k : nat) :
  str_offset (String.length front + k) (front +:+ back) = str_offset k back.
Proof.
  induction front as [|c front IH]; [reflexivity|].
  rewrite string_app_cons. simpl. exact IH.
Qed.

(** Of two endings of one string, the shorter is an ending of the
    longer. *)
Lemma ending_of_ending (str short long : string) :
  ends_with str short -> ends_with str long ->
  String.length short <= String.length long ->
  ends_with long short.
Proof.
  intros [a Ha] [b Hb] Hlen.
  assert (Hoff : str_offset (String.length long - String.length short) long
                 = short).
  { rewrite <- (str_offset_app_add b long).
    rewrite <- Hb, Ha.
    replace (String.length b
             + (String.length long - String.length short))
      with (String.length a).
    - apply str_offset_app.
    - assert (Hl : String.length (a +:+ short) = String.length (b +:+ long))
        by now rewrite <- Ha, <- Hb.
      rewrite !string_length_app in Hl. lia. }
  destruct (str_offset_split
              (String.length long - String.length short) long)
    as [front [Hsplit _]]; [lia|].
  exists front. now rewrite Hoff in Hsplit.
Qed.

Lemma unrelated_ending (str ext suffix : string) :
  ends_with str ext ->
  g_str_has_suffix ext suffix = false ->
  g_str_has_suffix suffix ext = false ->
  ~ ends_with str suffix.
Proof.
  intros Hext Hno1 Hno2 Hsuf.
  destruct (Nat.le_gt_cases (String.length suffix) (String.length ext))
    as [Hle|Hgt].
  - pose proof (ending_of_ending _ _ _ Hsuf Hext Hle) as H.
    apply g_str_has_suffix_spec in H. congruence.
  - assert (Hle : String.length ext <= String.length suffix) by lia.
    pose proof (ending_of_ending _ _ _ Hext Hsuf Hle) as H.
    apply g_str_has_suffix_spec in H. congruence.
Qed.

(** X3: the extension test is exact and case-sensitive.  A file name
    that ends in [ext] is encoded as PNG whenever [ext] neither ends in
    [.jpg] or [.jpeg] nor is a tail of one of them: so it is for [.JPG],
    [.JPEG], [.jpe], [.png] and for the suggested [clipboard_image.png]. *)
Theorem image_format_other_extension (front ext : string) :
  g_str_has_suffix ext ".jpg" = false ->
  g_str_has_suffix ".jpg" ext = false ->
  g_str_has_suffix ext ".jpeg" = false ->
  g_str_has_suffix ".jpeg" ext = false ->
  image_format (front +:+ ext) = "png".
Proof.
  intros Hjpg1 Hjpg2 Hjpeg1 Hjpeg2.
  apply image_format_png.
  assert (Hext : ends_with (front +:+ ext) ext) by now exists front.
  intros [H|H].
  - exact (unrelated_ending _ _ _ Hext Hjpg1 Hjpg2 H).
  - exact (unrelated_ending _ _ _ Hext Hjpeg1 Hjpeg2 H).
Qed.

(** X3, for an upper-case extension and for the suggested name. *)
Lemma image_format_other_extension_witness :
  image_format ("/tmp/photo" +:+ ".JPG") = "png" /\
  image_format ("/home/user/" +:+ "clipboard_image.png") = "png".
Proof.
  split; apply image_format_other_extension; reflexivity.
Defined.

(** ** The events of a run *)

Lemma report_event (i : nat) (targets : list GdkAtom) (e : Event) :
  In e (print_targets_events i targets) ->
  e = EvPrint ", " [] \/
  exists a, In a targets /\ e = EvPrint "%s" [gdk_atom_name a].
Proof.
  revert i. induction targets as [|t rest IH]; intros i; simpl; [tauto|].
  intros Hin. apply in_app_or in Hin. destruct Hin as [Hin|[Hin|Hin]].
  - destruct (Nat.ltb 0 i); simpl in Hin; [|tauto].
    destruct Hin as [<-|[]]. now left.
  - right. exists t. split; [now left | now symmetry].
  - destruct (IH _ Hin) as [He|(a & Ha & He)]; [now left|].
    right. exists a. split; [now right | exact He].
Qed.

Lemma no_target_trace_event (targets : list GdkAtom) (e : Event) :
  In e ([EvRequestTargets]
        ++ (EvPrint fmt_unsupported [] :: EvPrint fmt_found_targets []
            :: print_targets_events 0 targets ++ [EvPrint nl []])
        ++ [EvMainQuit]) ->
  In e [EvRequestTargets; EvPrint fmt_unsupported [];
        EvPrint fmt_found_targets []; EvPrint nl []; EvMainQuit] \/
  In e (print_targets_events 0 targets).
Proof.
  intros Hin. simpl in Hin. rewrite <- app_assoc in Hin. simpl in Hin.
  destruct Hin as [<-|[<-|[<-|Hin]]]; try (left; simpl; tauto).
  apply in_app_or in Hin. destruct Hin as [Hin|Hin]; [now right|].
  left. simpl in *. tauto.
Qed.




(** Splits membership in a trace written out event by event, and drops
    the events that cannot be the one looked for. *)
Ltac in_trace H :=
  simpl in H;
  repeat (destruct H as [H|H]; [try discriminate H|]);
  try contradiction.

Ltac other_format H :=
  let Hfmt := fresh "Hfmt" in
  injection H as Hfmt; vm_compute in Hfmt; discriminate Hfmt.


(** ** What a run does to the files *)

Lemma after_failed_save_other (left : Destination) (filename other : string)
    (fs : gmap string string) :
  other <> filename ->
  after_failed_save left filename fs !! other = fs !! other.
Proof.
  intros Hne. destruct left as [| |contents]; simpl.
  - reflexivity.
  - apply lookup_delete_ne. congruence.
  - apply lookup_insert_ne. congruence.
Qed.

(** X5: a run touches at most the file the user chose: any file that
    differs after the run from what it was before is the one whose name
    an accepted dialog of that run gave. *)
Theorem run_changes_at_most_one_file (env : Env) (fs : gmap string string)
    (fuel : nat) :
  exists st,
    main (Display env) fs (S (S fuel)) = Returned 0%Z st /\
    forall path,
      files st !! path <> fs !! path ->
      exists dialog,
        In (EvDialogRun dialog) (trace st) /\
        dialog_response env dialog = GTK_RESPONSE_ACCEPT /\
        dialog_filename env dialog = Some path.
Proof.
  destruct (main_run_shape env fs fuel) as (st & Hrun & Hshape).
  exists st. split; [exact Hrun|].
  intros path Hne.
  destruct Hshape; cbn [trace files] in *;
    try (exfalso; apply Hne; reflexivity).
  - destruct (decide (path = filename)) as [->|Hother].
    + exists image_dialog. split; [simpl; tauto|]. now split.
    + exfalso. apply Hne. apply lookup_insert_ne. congruence.
  - destruct (decide (path = filename)) as [->|Hother].
    + exists image_dialog. split; [simpl; tauto|]. now split.
    + exfalso. apply Hne. now apply after_failed_save_other.
  - destruct (decide (path = filename)) as [->|Hother].
    + exists text_dialog. split; [simpl; tauto|]. now split.
    + exfalso. apply Hne. apply lookup_insert_ne. congruence.
Qed.

(** X6: the success messages tell the truth.  When a run has printed
    that the text was saved to a file, that file holds the text decoded
    from the selected target; when it has printed that the image was
    saved, the file holds what the encoder produced for the decoded image
    in the format of that name; and a file that differs after the run is
    one that a success line names, or the destination of the encoder call
    whose failure the run reported. *)
Theorem success_message_truthful (env : Env) (fs : gmap string string)
    (fuel : nat) :
  exists st,
    main (Display env) fs (S (S fuel)) = Returned 0%Z st /\
    (forall filename,
       In (EvPrint fmt_text_saved [filename]) (trace st) ->
       exists t text,
         select_target (clipboard_targets env) = Some t /\
         gtk_selection_data_get_text (clipboard_contents env t) = Some text /\
         files st !! filename = Some text) /\
    (forall filename,
       In (EvPrint fmt_image_saved [filename]) (trace st) ->
       exists t pixbuf encoded,
         select_target (clipboard_targets env) = Some t /\
         gtk_selection_data_get_pixbuf (clipboard_contents env t)
         = Some pixbuf /\
         pixbuf_save_result env pixbuf filename (image_format filename)
         = inl encoded /\
         files st !! filename = Some encoded) /\
    (forall path,
       files st !! path <> fs !! path ->
       In (EvPrint fmt_text_saved [path]) (trace st) \/
       In (EvPrint fmt_image_saved [path]) (trace st) \/
       exists pixbuf error,
         In (EvPixbufSave pixbuf path (image_format path)) (trace st) /\
         In (EvPrintErr fmt_image_error [message error]) (trace st)).
Proof.
  destruct (main_run_shape env fs fuel) as (st & Hrun & Hshape).
  exists st. split; [exact Hrun|].
  destruct Hshape; cbn [trace files].
  1:{ split; [|split].
      - intros f Hin. exfalso.
        apply no_target_trace_event in Hin. destruct Hin as [Hin|Hin].
        + in_trace Hin.
        + apply report_event in Hin.
          destruct Hin as [Hin|(a & _ & Hin)]; discriminate Hin.
      - intros f Hin. exfalso.
        apply no_target_trace_event in Hin. destruct Hin as [Hin|Hin].
        + in_trace Hin.
        + apply report_event in Hin.
          destruct Hin as [Hin|(a & _ & Hin)]; discriminate Hin.
      - intros path Hne. exfalso. now apply Hne. }
  all: split;
    [ intros f Hin; in_trace Hin; try other_format Hin
    | split;
      [ intros f Hin; in_trace Hin; try other_format Hin
      | intros path Hne; try (exfalso; apply Hne; reflexivity) ] ].
  - injection Hin as <-. exists t, pixbuf, encoded.
    repeat (split; [assumption|]). apply lookup_insert_eq.
  - destruct (decide (path = filename)) as [->|Hother].
    + right. left. simpl. tauto.
    + exfalso. apply Hne. apply lookup_insert_ne. congruence.
  - destruct (decide (path = filename)) as [->|Hother].
    + right. right. exists pixbuf, error. simpl. tauto.
    + exfalso. apply Hne. now apply after_failed_save_other.
  - injection Hin as <-. exists t, text.
    repeat (split; [assumption|]). apply lookup_insert_eq.
  - destruct (decide (path = filename)) as [->|Hother].
    + left. simpl. tauto.
    + exfalso. apply Hne. apply lookup_insert_ne. congruence.
Qed.

(** ** What a run prints on standard error *)


(** ** Which dialog a run opens *)

(** X8: the dialog is chosen by what the payload decodes to, not by the
    target that was requested, and the image decoder is asked first.  A
    payload of non-zero length that decodes as an image opens the image
    dialog and no other, even when it was fetched for a text target and
    decodes as text as well; one that decodes only as text opens the text
    dialog and no other; one that decodes as neither opens none. *)
Theorem payload_decides_dialog (env : Env) (fs : gmap string string)
    (fuel : nat) (t : GdkAtom) :
  select_target (clipboard_targets env) = Some t ->
  gtk_selection_data_get_length (clipboard_contents env t) <> 0%Z ->
  exists st,
    main (Display env) fs (S (S fuel)) = Returned 0%Z st /\
    match gtk_selection_data_get_pixbuf (clipboard_contents env t),
          gtk_selection_data_get_text (clipboard_contents env t) with
    | Some _, _ =>
        forall dialog,
          In (EvDialogRun dialog) (trace st) <-> dialog = image_dialog
    | None, Some _ =>
        forall dialog,
          In (EvDialogRun dialog) (trace st) <-> dialog = text_dialog
    | None, None =>
        forall dialog, ~ In (EvDialogRun dialog) (trace st)
    end.
Proof.
  intros Hsel Hlen.
  destruct (main_run_shape env fs fuel) as (st & Hrun & Hshape).
  exists st. split; [exact Hrun|].
  destruct Hshape; cbn [trace];
    match goal with
    | H : select_target _ = _ |- _ =>
        rewrite Hsel in H; try discriminate H; injection H as <-
    end;
    try contradiction;
    repeat match goal with
           | H : gtk_selection_data_get_pixbuf _ = _ |- _ => rewrite H; clear H
           | H : gtk_selection_data_get_text _ = _ |- _ => rewrite H; clear H
           end.
  1:{ intros dialog Hin. in_trace Hin. }
  all: intros dialog; split;
    [ intros Hin; in_trace Hin; now injection Hin as <-
    | intros ->; simpl; tauto ].
Qed.

(** X8, for the source of a drawing fetched as text. *)
Lemma payload_decides_dialog_witness :
  exists st,
    main (Display drawing_env) ∅ 2 = Returned 0%Z st /\
    forall dialog,
      In (EvDialogRun dialog) (trace st) <-> dialog = image_dialog.
Proof.
  refine (payload_decides_dialog drawing_env ∅ 0 "UTF8_STRING" eq_refl _).
  discriminate.
Defined.

(** ** Runs from end to end *)

(** X9: a text save from end to end.  When a text target is selected,
    its payload decodes as text only, the dialog is accepted with a file
    name and the write succeeds, the run is: request targets, request
    the target, progress line, dialog, one write of the decoded text,
    success line, quit.  The file then holds the text, standard output
    the two lines, standard error nothing, and [main] returns 0. *)
Theorem text_saved_end_to_end (env : Env) (fs : gmap string string)
    (fuel : nat) (t : GdkAtom) (text filename : string) :
  select_target (clipboard_targets env) = Some t ->
  gtk_selection_data_get_length (clipboard_contents env t) <> 0%Z ->
  gtk_selection_data_get_pixbuf (clipboard_contents env t) = None ->
  gtk_selection_data_get_text (clipboard_contents env t) = Some text ->
  dialog_response env text_dialog = GTK_RESPONSE_ACCEPT ->
  dialog_filename env text_dialog = Some filename ->
  file_set_contents_result env filename text = None ->
  exists st,
    main (Display env) fs (S (S fuel)) = Returned 0%Z st /\
    trace st = [EvRequestTargets; EvRequestContents t;
                EvPrint fmt_text_detected []; EvDialogRun text_dialog;
                EvFileSetContents filename text;
                EvPrint fmt_text_saved [filename]; EvMainQuit] /\
    files st = <[filename := text]> fs /\
    stdout_of (trace st) =
    "Text data detected. Opening save dialog..." +:+ nl
    +:+ "Text successfully saved to: " +:+ filename +:+ nl /\
    stderr_of (trace st) = EmptyString.
Proof.
  intros Hsel Hlen Hpix Htxt Hresp Hname Hok.
  eexists. split.
  - eapply main_selection;
      [ exact Hsel
      | rewrite (content_text_run _ _ _ _ Hlen Hpix Htxt);
        apply (save_text_saved_run _ _ _ _ Hresp Hname Hok)
      | reflexivity ].
  - cbn [trace files app]. repeat split.
    change (stdout_of
              [EvRequestTargets; EvRequestContents t;
               EvPrint fmt_text_detected []; EvDialogRun text_dialog;
               EvFileSetContents filename text;
               EvPrint fmt_text_saved [filename]; EvMainQuit])
      with ("Text data detected. Opening save dialog..." +:+ nl
            +:+ ("Text successfully saved to: " +:+ filename +:+ nl)
            +:+ EmptyString).
    now rewrite string_app_nil_r.
Qed.

(** X9, for the text [hello] saved to [/tmp/out.txt]. *)
Lemma text_saved_end_to_end_witness :
  exists st,
    main (Display (accepting_env (Some "/tmp/out.txt") true)) ∅ 2
    = Returned 0%Z st /\
    trace st = [EvRequestTargets; EvRequestContents "UTF8_STRING";
                EvPrint fmt_text_detected []; EvDialogRun text_dialog;
                EvFileSetContents "/tmp/out.txt" ("hello" +:+ nl);
                EvPrint fmt_text_saved ["/tmp/out.txt"]; EvMainQuit] /\
    files st = <["/tmp/out.txt" := "hello" +:+ nl]> ∅ /\
    stdout_of (trace st) =
    "Text data detected. Opening save dialog..." +:+ nl
    +:+ "Text successfully saved to: " +:+ "/tmp/out.txt" +:+ nl /\
    stderr_of (trace st) = EmptyString.
Proof.
  refine (text_saved_end_to_end (accepting_env (Some "/tmp/out.txt") true)
            ∅ 0 "UTF8_STRING" ("hello" +:+ nl) "/tmp/out.txt"
            eq_refl _ eq_refl eq_refl eq_refl eq_refl eq_refl).
  discriminate.
Defined.

(** X10: an image save from end to end.  When the payload of the
    selected target decodes as an image, the dialog is accepted with a
    file name and the encoder succeeds, the run is: request targets,
    request the target, progress line, dialog, one call of the encoder
    with the format of the name, success line, quit.  The file then holds
    the encoder's output, and [main] returns 0. *)
Theorem image_saved_end_to_end (env : Env) (fs : gmap string string)
    (fuel : nat) (t : GdkAtom) (pixbuf : GdkPixbuf)
    (filename encoded : string) :
  select_target (clipboard_targets env) = Some t ->
  gtk_selection_data_get_length (clipboard_contents env t) <> 0%Z ->
  gtk_selection_data_get_pixbuf (clipboard_contents env t) = Some pixbuf ->
  dialog_response env image_dialog = GTK_RESPONSE_ACCEPT ->
  dialog_filename env image_dialog = Some filename ->
  pixbuf_save_result env pixbuf filename (image_format filename)
  = inl encoded ->
  exists st,
    main (Display env) fs (S (S fuel)) = Returned 0%Z st /\
    trace st = [EvRequestTargets; EvRequestContents t;
                EvPrint fmt_image_detected []; EvDialogRun image_dialog;
                EvPixbufSave pixbuf filename (image_format filename);
                EvPrint fmt_image_saved [filename]; EvMainQuit] /\
    files st = <[filename := encoded]> fs /\
    stdout_of (trace st) =
    "Image data detected. Opening save dialog..." +:+ nl
    +:+ "Image successfully saved to: " +:+ filename +:+ nl /\
    stderr_of (trace st) = EmptyString.
Proof.
  intros Hsel Hlen Hpix Hresp Hname Hok.
  eexists. split.
  - eapply main_selection;
      [ exact Hsel
      | rewrite (content_image_run _ _ _ _ Hlen Hpix);
        apply (save_image_saved_run _ _ _ _ _ Hresp Hname Hok)
      | reflexivity ].
  - cbn [trace files app]. repeat split.
    change (stdout_of
              [EvRequestTargets; EvRequestContents t;
               EvPrint fmt_image_detected []; EvDialogRun image_dialog;
               EvPixbufSave pixbuf filename (image_format filename);
               EvPrint fmt_image_saved [filename]; EvMainQuit])
      with ("Image data detected. Opening save dialog..." +:+ nl
            +:+ ("Image successfully saved to: " +:+ filename +:+ nl)
            +:+ EmptyString).
    now rewrite string_app_nil_r.
Qed.

(** X10, for an image saved as [/tmp/photo.jpg], offered after a text
    target. *)
Lemma image_saved_end_to_end_witness :
  exists st,
    main (Display (image_env (Some "/tmp/photo.jpg") true)) ∅ 2
    = Returned 0%Z st /\
    trace st = [EvRequestTargets; EvRequestContents "image/png";
                EvPrint fmt_image_detected []; EvDialogRun image_dialog;
                EvPixbufSave sample_pixbuf "/tmp/photo.jpg"
                             (image_format "/tmp/photo.jpg");
                EvPrint fmt_image_saved ["/tmp/photo.jpg"]; EvMainQuit] /\
    files st = <["/tmp/photo.jpg" := "encoded as jpeg"]> ∅ /\
    stdout_of (trace st) =
    "Image data detected. Opening save dialog..." +:+ nl
    +:+ "Image successfully saved to: " +:+ "/tmp/photo.jpg" +:+ nl /\
    stderr_of (trace st) = EmptyString.
Proof.
  refine (image_saved_end_to_end (image_env (Some "/tmp/photo.jpg") true)
            ∅ 0 "image/png" sample_pixbuf "/tmp/photo.jpg" "encoded as jpeg"
            eq_refl _ eq_refl eq_refl eq_refl eq_refl).
  discriminate.
Defined.

(** X11: a clipboard that offers no target at all.  Both scanning
    loops and the printing loop run zero times: the run prints the
    empty-or-unsupported line and an empty list of targets, requests no
    contents, opens no dialog and returns 0 after the first delivery. *)
Theorem no_targets_at_all (env : Env) (fs : gmap string string)
    (fuel : nat) :
  clipboard_targets env = [] ->
  main (Display env) fs (S fuel) =
  Returned 0%Z
    (mkState [EvRequestTargets; EvPrint fmt_unsupported [];
              EvPrint fmt_found_targets []; EvPrint nl []; EvMainQuit]
             fs [] true) /\
  stdout_of [EvRequestTargets; EvPrint fmt_unsupported [];
             EvPrint fmt_found_targets []; EvPrint nl []; EvMainQuit] =
  "Clipboard is empty or contains an unsupported format." +:+ nl
  +:+ "Found targets: " +:+ nl.
Proof.
  intros Hnone. split; [|reflexivity].
  assert (Hsel : select_target (clipboard_targets env) = None)
    by now rewrite Hnone.
  rewrite (main_no_selection env fs fuel Hsel), Hnone. reflexivity.
Qed.

(** X11, for an empty clipboard. *)
Lemma no_targets_at_all_witness :
  main (Display bare_env) ∅ 1 =
  Returned 0%Z
    (mkState [EvRequestTargets; EvPrint fmt_unsupported [];
              EvPrint fmt_found_targets []; EvPrint nl []; EvMainQuit]
             ∅ [] true) /\
  stdout_of [EvRequestTargets; EvPrint fmt_unsupported [];
             EvPrint fmt_found_targets []; EvPrint nl []; EvMainQuit] =
  "Clipboard is empty or contains an unsupported format." +:+ nl
  +:+ "Found targets: " +:+ nl.
Proof.
  exact (no_targets_at_all bare_env ∅ 0 eq_refl).
Defined.

(** ** The main loop *)

Lemma gtk_main_more_fuel (env : Env) (fuel : nat) (st st' : State) :
  gtk_main env fuel st = Returned tt st' ->
  gtk_main env (S fuel) st = Returned tt st'.
Proof.
  revert st. induction fuel as [|fuel IH]; intros st; [discriminate|].
  intros Hrun. simpl in Hrun.
  change (gtk_main env (S (S fuel)) st)
    with (match take_callback st with
          | None => Blocked st
          | Some (cb, st1) =>
              let st2 := exec (dispatch env cb) st1 in
              if quit_requested st2 then Returned tt st2
              else gtk_main env (S fuel) st2
          end).
  destruct (take_callback st) as [[cb st1]|]; [|discriminate].
  simpl in *.
  destruct (quit_requested (exec (dispatch env cb) st1)); [exact Hrun|].
  now apply IH.
Qed.

Lemma main_more_fuel (env : Env) (fs : gmap string string) (fuel : nat)
    (st : State) :
  main (Display env) fs fuel = Returned 0%Z st ->
  main (Display env) fs (S fuel) = Returned 0%Z st.
Proof.
  unfold main. cbn [gtk_init].
  destruct (gtk_main env fuel _) as [[] st'| | |] eqn:Hrun;
    try discriminate.
  intros [= <-]. now rewrite (gtk_main_more_fuel _ _ _ _ Hrun).
Qed.

Lemma main_one_delivery (env : Env) (fs : gmap string string)
    (t : GdkAtom) :
  select_target (clipboard_targets env) = Some t ->
  main (Display env) fs 1 = OutOfFuel.
Proof.
  intros Hsel. unfold main, exec. simpl.
  unfold exec, on_clipboard_received_targets. rewrite Hsel. reflexivity.
Qed.

(** X12: the main loop never starves and never needs a third delivery.
    Every callback either registers the next one or calls
    [gtk_main_quit], so [gtk_main] is never left waiting with nothing to
    deliver; and the run with fuel for two deliveries is the run with any
    more fuel. *)
Theorem main_loop_never_starves (env : Env) (fs : gmap string string)
    (fuel : nat) :
  (forall st, main (Display env) fs fuel <> Blocked st) /\
  main (Display env) fs (S (S fuel)) = main (Display env) fs 2.
Proof.
  assert (Hsame : main (Display env) fs (S (S fuel)) = main (Display env) fs 2).
  { destruct (main_run_shape env fs 0) as (st & Hrun & _).
    rewrite Hrun. clear -Hrun.
    induction fuel as [|fuel IH]; [exact Hrun|].
    now apply main_more_fuel. }
  split; [|exact Hsame].
  intros st Hblocked.
  destruct fuel as [|[|fuel]].
  - discriminate Hblocked.
  - destruct (select_target (clipboard_targets env)) as [t|] eqn:Hsel.
    + rewrite (main_one_delivery env fs t Hsel) in Hblocked.
      discriminate Hblocked.
    + rewrite (main_no_selection env fs 0 Hsel) in Hblocked.
      discriminate Hblocked.
  - destruct (main_run_shape env fs fuel) as (st' & Hrun & _).
    rewrite Hrun in Hblocked. discriminate Hblocked.
Qed.

(** ** The printing loop *)

Lemma print_targets_events_later (i : nat) (targets : list GdkAtom) :
  print_targets_events (S i) targets =
  List.flat_map
    (fun a => [EvPrint ", " []; EvPrint "%s" [gdk_atom_name a]]) targets.
Proof.
  revert i. induction targets as [|t rest IH]; intros i; [reflexivity|].
  simpl. now rewrite IH.
Qed.

(** X13: the report prints every offered identifier exactly once, in
    the order of the clipboard, each as the argument of [%s], with a
    separator before every one but the first and none at either end; the
    loop changes nothing but the output. *)
Theorem report_lists_each_target_once (targets : list GdkAtom)
    (st : State) :
  print_targets 0 targets st =
  (tt,
   mkState (trace st
            ++ match targets with
               | [] => []
               | t :: rest =>
                   EvPrint "%s" [gdk_atom_name t]
                   :: List.flat_map
                        (fun a =>
                           [EvPrint ", " []; EvPrint "%s" [gdk_atom_name a]])
                        rest
               end)
           (files st) (pending st) (quit_requested st)).
Proof.
  rewrite print_targets_run.
  destruct targets as [|t rest]; [reflexivity|].
  simpl. now rewrite print_targets_events_later.
Qed.
